(** * HTCondor job-history analysis (condor_analysis/): a shallow embedding

    The Python scripts under [condor_analysis/] read a list of job ads
    (JSON objects written by [condor_history -json]), normalise every ad
    into one row of a table, and derive four views of that table: the
    phase intervals of a Gantt chart, the number of concurrently running
    jobs, the distribution of the phase durations, and the cumulative
    completion curve.

    Conventions of the embedding.
    - A job ad is a Python [dict]; it is a [gmap string pyval].  The values
      that matter are integers and JSON [null].
    - A [datetime] is a number of microseconds since the epoch (the
      resolution of Python's [datetime]); [datetime.fromtimestamp] is taken
      at a fixed UTC offset of zero.  A [timedelta] is a number of
      microseconds as well.
    - Python floats are idealised as exact rationals ([Q]); [nan] is the
      absent float.  Rounding is not modelled.
    - An uncaught Python exception is an explicit [Raised] outcome. *)

From Stdlib Require Import ZArith QArith Qround Qminmax Lia Lqa.
From stdpp Require Import gmap strings list sorting.

Local Open Scope Z_scope.

(** ** Python values and the few built-ins the scripts rely on *)

Module Py.

Inductive pyval : Type :=
| PNone
| PInt (z : Z).

(** [bool(v)]: [None] and [0] are falsy, every other integer is truthy. *)
Definition truthy (v : pyval) : bool :=
  match v with
  | PNone => false
  | PInt z => negb (z =? 0)
  end.

(** [a != b] on the values above. *)
Definition ne (a b : pyval) : bool :=
  match a, b with
  | PNone, PNone => false
  | PInt x, PInt y => negb (x =? y)
  | _, _ => true
  end.

(** [job.get(key)] and [job.get(key, default)]. *)
Definition get (job : gmap string pyval) (key : string) : pyval :=
  match job !! key with
  | Some v => v
  | None => PNone
  end.

Definition get_default (job : gmap string pyval) (key : string) (d : pyval) : pyval :=
  match job !! key with
  | Some v => v
  | None => d
  end.

(** The number carried by a value that passed an [if v] test. *)
Definition number (v : pyval) : option Z :=
  match v with
  | PInt z => if z =? 0 then None else Some z
  | PNone => None
  end.

Definition datetime : Type := Z.
Definition timedelta : Type := Z.

(** [datetime.fromtimestamp(ts)], the naive local time of a timestamp, for
    a zone whose offset from UTC does not change over the history (taken
    as zero).  Where the offset changes, the distance between two
    converted instants is no longer the difference of their timestamps.
    The scripts compute durations from the timestamps, and bars, bins and
    curves from the instants; a statement that equates a distance
    between instants with a duration rests on the fixed offset. *)
Definition fromtimestamp (ts : Z) : datetime := ts * 1000000.

(** [td.total_seconds()]. *)
Definition total_seconds (td : timedelta) : Q := td # 1000000.
Arguments total_seconds td%_Z.

Inductive exn : Type :=
| ZeroDivisionError
| ValueError.

Inductive outcome (A : Type) : Type :=
| Returned (a : A)
| Raised (e : exn).
Arguments Returned {A} a.
Arguments Raised {A} e.

End Py.
Import Py.

(** ** condor_to_parquet.py *)

Module CondorToParquet.

(** One row of the table built by [parse_condor_history]. *)
Record JobRecord : Type := {
  cluster_id : pyval;
  proc_id : pyval;
  job_status : pyval;
  exit_code : pyval;
  failed : bool;
  job_start_time : option datetime;
  input_start_time : option datetime;
  input_end_time : option datetime;
  output_start_time : option datetime;
  output_end_time : option datetime;
  job_end_time : option datetime;
  completion_time : option datetime;
  input_transfer_duration : option Z;
  job_duration : option Z;
  output_transfer_duration : option Z;
  total_duration : option Z
}.

(** [datetime.fromtimestamp(ts) if ts else None]. *)
Definition to_datetime (ts : pyval) : option datetime :=
  if truthy ts then fromtimestamp <$> number ts else None.

(** [d = None; if a and b: d = b - a]. *)
Definition duration_between (a b : pyval) : option Z :=
  if truthy a && truthy b then
    match number a, number b with
    | Some x, Some y => Some (y - x)
    | _, _ => None
    end
  else None.

(** The body of the [for job in data] loop. *)
Definition parse_job (job : gmap string pyval) : JobRecord :=
  let proc_id := get job "ProcId" in
  let cluster_id := get job "ClusterId" in
  let job_status := get_default job "JobStatus" (PInt 0) in
  let exit_code := get_default job "ExitCode" (PInt 0) in
  let job_start_timestamp := get job "JobCurrentStartDate" in
  let input_start_timestamp := get job "JobCurrentStartTransferInputDate" in
  let input_end_timestamp := get job "JobCurrentFinishTransferInputDate" in
  let output_start_timestamp := get job "JobCurrentStartTransferOutputDate" in
  let output_end_timestamp := get job "JobCurrentFinishTransferOutputDate" in
  let job_end_timestamp := get job "JobFinishedHookTime" in
  let completion_timestamp := get job "CompletionDate" in
  {| cluster_id := cluster_id;
     proc_id := proc_id;
     job_status := job_status;
     exit_code := exit_code;
     failed := ne job_status (PInt 4) || ne exit_code (PInt 0);
     job_start_time := to_datetime job_start_timestamp;
     input_start_time := to_datetime input_start_timestamp;
     input_end_time := to_datetime input_end_timestamp;
     output_start_time := to_datetime output_start_timestamp;
     output_end_time := to_datetime output_end_timestamp;
     job_end_time := to_datetime job_end_timestamp;
     completion_time := to_datetime completion_timestamp;
     input_transfer_duration :=
       duration_between input_start_timestamp input_end_timestamp;
     job_duration := duration_between job_start_timestamp job_end_timestamp;
     output_transfer_duration :=
       duration_between output_start_timestamp output_end_timestamp;
     total_duration :=
       duration_between job_start_timestamp completion_timestamp |}.

Definition parse_condor_history (data : list (gmap string pyval)) : list JobRecord :=
  parse_job <$> data.

End CondorToParquet.

(** ** gantt_chart.py *)

Module GanttChart.

Inductive phase_name : Type :=
| InputTransfer
| JobExecution
| OutputTransfer.

(** One row of the phase table: the dict appended to [records]. *)
Record PhaseRecord : Type := {
  job_id : pyval;
  cluster_id : pyval;
  phase : phase_name;
  start_time : datetime;
  end_time : datetime;
  duration : Z;
  failed : bool
}.

(** The dict literal shared by the four [records.append] calls; it is only
    reached with two truthy timestamps. *)
Definition phase_record (proc_id cluster_id : pyval) (p : phase_name)
    (a b : pyval) (failed : bool) : list PhaseRecord :=
  match number a, number b with
  | Some x, Some y =>
      [ {| job_id := proc_id; cluster_id := cluster_id; phase := p;
           start_time := fromtimestamp x; end_time := fromtimestamp y;
           duration := y - x; failed := failed |} ]
  | _, _ => []
  end.

(** The body of the [for job in data] loop: the records it appends. *)
Definition parse_job (job : gmap string pyval) : list PhaseRecord :=
  let proc_id := get job "ProcId" in
  let cluster_id := get job "ClusterId" in
  let job_status := get_default job "JobStatus" (PInt 0) in
  let exit_code := get_default job "ExitCode" (PInt 0) in
  let failed := ne job_status (PInt 4) || ne exit_code (PInt 0) in
  let input_start := get job "JobCurrentStartTransferInputDate" in
  let input_end := get job "JobCurrentFinishTransferInputDate" in
  let output_start := get job "JobCurrentStartTransferOutputDate" in
  let output_end := get job "JobCurrentFinishTransferOutputDate" in
  let completion_date := get job "CompletionDate" in
  (if truthy input_start && truthy input_end
   then phase_record proc_id cluster_id InputTransfer input_start input_end failed
   else [])
  ++
  (if truthy input_end && truthy output_start
   then phase_record proc_id cluster_id JobExecution input_end output_start failed
   else [])
  ++
  (if truthy output_start && truthy output_end
   then phase_record proc_id cluster_id OutputTransfer output_start output_end failed
   else if failed && truthy output_start && truthy completion_date
   then phase_record proc_id cluster_id OutputTransfer output_start completion_date failed
   else []).

Definition parse_condor_history (data : list (gmap string pyval)) : list PhaseRecord :=
  data ≫= parse_job.

End GanttChart.

(** ** The numpy and pandas reductions the plotting scripts call *)

Module Numpy.

(** [min(xs)] and [max(xs)]; [None] on an empty list (where Python raises
    [ValueError] and pandas answers [NaT]). *)
Definition minimum (xs : list Z) : option Z :=
  match xs with
  | [] => None
  | x :: rest => Some (foldr Z.min x rest)
  end.

Definition maximum (xs : list Z) : option Z :=
  match xs with
  | [] => None
  | x :: rest => Some (foldr Z.max x rest)
  end.

Definition sum (xs : list Z) : Z := foldr Z.add 0 xs.

Definition sorted (xs : list Z) : list Z := merge_sort Z.le xs.

(** [np.mean] and [Series.mean] of a non-empty list. *)
Definition mean (xs : list Z) : Q :=
  (inject_Z (sum xs) / inject_Z (Z.of_nat (length xs)))%Q.

(** [np.median] and [Series.median] of a non-empty list: the middle element
    of the sorted list, or the average of the two middle ones. *)
Definition median (xs : list Z) : Q :=
  let s := sorted xs in
  let n := length s in
  let lower := nth (n / 2 - 1)%nat s 0 in
  let upper := nth (n / 2)%nat s 0 in
  if Nat.even n
  then (inject_Z (lower + upper) / 2)%Q
  else inject_Z upper.

(** [np.percentile(xs, q)] with the default linear interpolation between
    the two closest ranks. *)
Definition percentile (xs : list Z) (q : Q) : Q :=
  let s := sorted xs in
  let n := length s in
  let h := (inject_Z (Z.of_nat n - 1) * (q / 100))%Q in
  let lo := Qfloor h in
  let hi := Z.min (lo + 1) (Z.of_nat n - 1) in
  let a := nth (Z.to_nat lo) s 0 in
  let b := nth (Z.to_nat hi) s 0 in
  (inject_Z a + (h - inject_Z lo) * inject_Z (b - a))%Q.

(** The last edge returned by [np.histogram(xs, bins='auto')] for a
    non-empty sample: the outer edges are the minimum and the maximum of
    the data, both moved by one half when they coincide; the bin-width
    estimator only fixes how many equal bins lie in between.  An empty
    sample is binned over [[0, 1]]. *)
Definition histogram_auto_last_edge (xs : list Z) : Q :=
  match minimum xs, maximum xs with
  | Some lo, Some hi =>
      if lo =? hi then (inject_Z hi + (1 # 2))%Q else inject_Z hi
  | _, _ => 1%Q
  end.

(** [pd.date_range(start=start, periods=periods, freq=f'{seconds}s')];
    a negative number of periods is refused. *)
Definition date_range (start : datetime) (periods : Z) (seconds : Z)
    : outcome (list datetime) :=
  if periods <? 0 then Raised ValueError
  else Returned ((λ i : nat, start + Z.of_nat i * (seconds * 1000000))
                   <$> seq 0 (Z.to_nat periods)).

End Numpy.

(** ** plot_gantt_phases.py *)

Module PlotGanttPhases.
Import CondorToParquet GanttChart.

(** One [ax.barh] call, together with the duration appended to
    [phase_stats]. *)
Record Bar : Type := {
  y_pos : nat;
  bar_phase : phase_name;
  bar_start : datetime;
  bar_end : datetime;
  bar_duration : Q
}.

(** One of the three blocks of the loop body: both instants must be there
    ([pd.notna]) and the duration must be positive. *)
Definition phase_bar (idx : nat) (p : phase_name)
    (start_col end_col : option datetime) : list Bar :=
  match start_col, end_col with
  | Some start, Some end_ =>
      let duration := total_seconds (end_ - start) in
      if negb (Qle_bool duration 0)
      then [ {| y_pos := idx; bar_phase := p; bar_start := start;
                bar_end := end_; bar_duration := duration |} ]
      else []
  | _, _ => []
  end.

Definition row_bars (idx : nat) (row : JobRecord) : list Bar :=
  phase_bar idx InputTransfer (input_start_time row) (input_end_time row)
  ++ phase_bar idx JobExecution (input_end_time row) (output_start_time row)
  ++ phase_bar idx OutputTransfer (output_start_time row) (output_end_time row).

(** The [for idx, row in df_plot.iterrows()] loop; [df_plot] is the frame
    after the selection of rows and the sort by start time. *)
Definition plot_gantt_phases (df_plot : list JobRecord) : list Bar :=
  mjoin (imap row_bars df_plot).

End PlotGanttPhases.

(** ** plot_concurrent_jobs.py *)

Module PlotConcurrentJobs.
Import CondorToParquet Numpy.

Record ConcurrencyPlot : Type := {
  bin_centers : list datetime;
  bin_centers_hours : list Q;
  concurrent_counts : list Z;
  max_concurrent : Z;
  mean_concurrent : Q;
  median_concurrent : Q
}.

(** [col.notna()] on one cell. *)
Definition notna (cell : option datetime) : bool :=
  match cell with Some _ => true | None => false end.

(** [df['job_start_time'].notna() & df['completion_time'].notna()]. *)
Definition has_timing (row : JobRecord) : bool :=
  notna (job_start_time row) && notna (completion_time row).

(** [col <= t] and [col > t] on one cell; a missing instant compares false. *)
Definition cell_le (cell : option datetime) (t : datetime) : bool :=
  match cell with Some x => x <=? t | None => false end.

Definition cell_gt (cell : option datetime) (t : datetime) : bool :=
  match cell with Some x => x >? t | None => false end.

(** The rows selected into [running] for one bin centre. *)
Definition running (df_valid : list JobRecord) (bin_center : datetime)
    : list JobRecord :=
  List.filter
    (λ row, cell_le (job_start_time row) bin_center
            && cell_gt (completion_time row) bin_center)
    df_valid.

(** The centre of bin [i]. *)
Definition bin_center_of (time_bins : list datetime) (i : nat) : datetime :=
  let bin_start := nth i time_bins 0 in
  let bin_end := nth (i + 1) time_bins 0 in
  bin_start + (bin_end - bin_start) / 2.

Definition plot_concurrent_jobs (df : list JobRecord) (resolution_seconds : Z)
    : outcome (option ConcurrencyPlot) :=
  let df_valid := List.filter has_timing df in
  if (length df_valid =? 0)%nat then Returned None
  else
    match minimum (omap job_start_time df_valid),
          maximum (omap completion_time df_valid) with
    | Some start_time, Some end_time =>
        let total_duration := total_seconds (end_time - start_time) in
        if resolution_seconds =? 0 then Raised ZeroDivisionError
        else
          let num_bins :=
            Qceiling (total_duration / inject_Z resolution_seconds)%Q in
          match date_range start_time (num_bins + 1) resolution_seconds with
          | Raised e => Raised e
          | Returned time_bins =>
              let bins : list nat := seq 0 (length time_bins - 1) in
              let centers : list datetime := bin_center_of time_bins <$> bins in
              let counts : list Z :=
                (λ c, Z.of_nat (length (running df_valid c))) <$> centers in
              match maximum counts with
              | None => Raised ValueError
              | Some max_concurrent =>
                  Returned (Some
                    {| bin_centers := centers;
                       bin_centers_hours :=
                         (λ c : datetime, (total_seconds (c - start_time) / 3600)%Q) <$> centers;
                       concurrent_counts := counts;
                       max_concurrent := max_concurrent;
                       mean_concurrent := mean counts;
                       median_concurrent := median counts |})
              end
          end
    | _, _ => Returned None
    end.

End PlotConcurrentJobs.

(** ** plot_duration_histograms.py *)

Module PlotDurationHistograms.
Import CondorToParquet Numpy.

(** [a > b] on floats. *)
Definition Qgt_bool (a b : Q) : bool := negb (Qle_bool a b).

(** Python's [min(a, b)]: [b] when it is smaller, [a] otherwise. *)
Definition py_min (a b : Q) : Q := if Qgt_bool a b then b else a.

(** What one pass of the [for phase in phases] loop works out for its
    column before drawing. *)
Record PhaseHistogram : Type := {
  data_positive : list Z;
  mean_val : Q;
  median_val : Q;
  outlier_detected : bool;
  x_max : option Q;
  data_to_plot : list Z;
  plot_mean : Q;
  n_excluded : Z
}.

(** The body of the loop for one column of durations in whole seconds, as
    condor_to_parquet.py writes them; [None] is the [continue] taken when
    nothing is left after the two filters. *)
Definition phase_histogram (column : list (option Z)) : option PhaseHistogram :=
  let data : list Z := omap id column in
  let data_positive := List.filter (λ d, d >? 0) data in
  if (length data_positive =? 0)%nat then None
  else
    let mean_val := mean data_positive in
    let median_val := median data_positive in
    let outlier_detected := Qgt_bool mean_val (5 * median_val)%Q in
    if outlier_detected then
      let last_edge := histogram_auto_last_edge data_positive in
      let p99 := percentile data_positive 99%Q in
      let x_max := py_min last_edge p99 in
      let data_to_plot :=
        List.filter (λ d, Qle_bool (inject_Z d) x_max) data_positive in
      let n_excluded :=
        Z.of_nat (length (List.filter (λ d, Qgt_bool (inject_Z d) x_max)
                            data_positive)) in
      Some {| data_positive := data_positive;
              mean_val := mean_val;
              median_val := median_val;
              outlier_detected := true;
              x_max := Some x_max;
              data_to_plot := data_to_plot;
              plot_mean := mean data_to_plot;
              n_excluded := n_excluded |}
    else
      Some {| data_positive := data_positive;
              mean_val := mean_val;
              median_val := median_val;
              outlier_detected := false;
              x_max := None;
              data_to_plot := data_positive;
              plot_mean := mean_val;
              n_excluded := 0 |}.

(** The [execution_duration] column: [job_duration] unless it is missing
    on every row, in which case it is the time from the end of the input
    transfer to the start of the output transfer.  The instants written by
    condor_to_parquet.py are whole seconds, so the division is exact. *)
Definition execution_duration (df : list JobRecord) : list (option Z) :=
  if forallb (λ row, bool_decide (job_duration row = None)) df
  then (λ row,
          match output_start_time row, input_end_time row with
          | Some o, Some i => Some ((o - i) / 1000000)
          | _, _ => None
          end) <$> df
  else job_duration <$> df.

(** The three passes of the loop, in the order of [phases]. *)
Definition plot_duration_histograms (df : list JobRecord)
    : list (option PhaseHistogram) :=
  [ phase_histogram (input_transfer_duration <$> df);
    phase_histogram (execution_duration df);
    phase_histogram (output_transfer_duration <$> df) ].

End PlotDurationHistograms.

(** ** plot_completion_curve.py *)

Module PlotCompletionCurve.
Import CondorToParquet Numpy.

Record CompletionPlot : Type := {
  completion_times : list datetime;
  cumulative_count : list Z;
  first_completion : option datetime;
  last_completion : option datetime;
  elapsed_seconds : option Q;
  jobs_per_minute : option Q
}.

(** The statistics are printed before anything is drawn, so the division
    in the "Completion rate" line is where a zero duration stops the
    script.  On an empty frame of datetime type the extremes are [NaT]
    and the two floats are [nan]; a completion column that holds only
    [None] objects is not of that type and is outside this model. *)
Definition plot_completion_curve (df : list JobRecord) : outcome CompletionPlot :=
  let df_complete : list datetime := sorted (omap completion_time df) in
  let count := Z.of_nat (length df_complete) in
  let cumulative : list Z := (λ i : nat, Z.of_nat i) <$> seq 1 (length df_complete) in
  match minimum df_complete, maximum df_complete with
  | Some first, Some last =>
      let total_duration := total_seconds (last - first) in
      let minutes := (total_duration / 60)%Q in
      if Qeq_bool minutes 0 then Raised ZeroDivisionError
      else
        Returned {| completion_times := df_complete;
                    cumulative_count := cumulative;
                    first_completion := Some first;
                    last_completion := Some last;
                    elapsed_seconds := Some total_duration;
                    jobs_per_minute := Some (inject_Z count / minutes)%Q |}
  | _, _ =>
      Returned {| completion_times := df_complete;
                  cumulative_count := cumulative;
                  first_completion := None;
                  last_completion := None;
                  elapsed_seconds := None;
                  jobs_per_minute := None |}
  end.

End PlotCompletionCurve.

(** ** gantt_chart.py: the summary printed before the chart *)

Module GanttStatistics.
Import GanttChart Numpy.

(** The value of a cell that is not missing. *)
Definition not_null (v : pyval) : option Z :=
  match v with
  | PInt z => Some z
  | PNone => None
  end.

(** [Series.nunique()]: the number of distinct values, missing ones left
    out. *)
Definition nunique (col : list pyval) : nat :=
  length (remove_dups (omap not_null col)).

Definition phase_eqb (p q : phase_name) : bool :=
  match p, q with
  | InputTransfer, InputTransfer => true
  | JobExecution, JobExecution => true
  | OutputTransfer, OutputTransfer => true
  | _, _ => false
  end.

Record Statistics : Type := {
  total_jobs : nat;
  failed_jobs : nat;
  success_rate : Q;
  average_durations : list (phase_name * Q)
}.

(** One pass of the [for phase in [...]] loop: the average is printed only
    when the phase has records. *)
Definition average_duration (df : list PhaseRecord) (p : phase_name)
    : list (phase_name * Q) :=
  let phase_df := List.filter (λ row, phase_eqb (phase row) p) df in
  if (length phase_df =? 0)%nat then []
  else [ (p, mean (duration <$> phase_df)) ].

(** [print_statistics(df)], for the non-empty frames [main] passes to it
    (a frame built from no record has no column to read): the success
    rate is printed before the averages, and its division is between two
    Python integers. *)
Definition print_statistics (df : list PhaseRecord) : outcome Statistics :=
  let total_jobs := nunique (job_id <$> df) in
  let failed_jobs := nunique (job_id <$> List.filter failed df) in
  if (total_jobs =? 0)%nat then Raised ZeroDivisionError
  else
    Returned
      {| total_jobs := total_jobs;
         failed_jobs := failed_jobs;
         success_rate :=
           (inject_Z (Z.of_nat total_jobs - Z.of_nat failed_jobs)
            / inject_Z (Z.of_nat total_jobs) * 100)%Q;
         average_durations :=
           average_duration df InputTransfer
           ++ average_duration df JobExecution
           ++ average_duration df OutputTransfer |}.

End GanttStatistics.

(** ** condor_to_parquet.py: the summary and the command line *)

Module CondorStatistics.
Import CondorToParquet Numpy.

(** [Series.value_counts().sort_index()] on a column of integers: every
    distinct value with the number of rows that hold it, by ascending
    value; missing cells are not counted. *)
Definition value_counts_sorted (col : list pyval) : list (Z * nat) :=
  let values := omap GanttStatistics.not_null col in
  (λ k, (k, length (List.filter (Z.eqb k) values)))
    <$> remove_dups (sorted values).

Record DurationStatistics : Type := {
  duration_mean : Q;
  duration_median : Q;
  duration_min : Z;
  duration_max : Z
}.

(** One pass of the [for col in duration_cols] loop; the standard
    deviation is left out. *)
Definition duration_statistics (name : string) (col : list (option Z))
    : list (string * DurationStatistics) :=
  let valid_data : list Z := omap id col in
  match minimum valid_data, maximum valid_data with
  | Some lo, Some hi =>
      [ (name, {| duration_mean := mean valid_data;
                  duration_median := median valid_data;
                  duration_min := lo;
                  duration_max := hi |}) ]
  | _, _ => []
  end.

Record Statistics : Type := {
  total_jobs : nat;
  failed_jobs : nat;
  success_rate : Q;
  jobs_with_completion : nat;
  jobs_without_completion : nat;
  status_breakdown : list (Z * nat);
  durations : list (string * DurationStatistics)
}.

(** [print_statistics(df)], for the non-empty tables [main] passes to it. *)
Definition print_statistics (df : list JobRecord) : Statistics :=
  let incomplete_df :=
    List.filter (λ row, negb (PlotConcurrentJobs.notna (completion_time row))) df in
  let jobs_without_completion := length incomplete_df in
  {| total_jobs := length df;
     failed_jobs := length (List.filter failed df);
     success_rate :=
       (inject_Z (Z.of_nat (length df) - Z.of_nat (length (List.filter failed df)))
        / inject_Z (Z.of_nat (length df)) * 100)%Q;
     jobs_with_completion :=
       length (List.filter (λ row, PlotConcurrentJobs.notna (completion_time row)) df);
     jobs_without_completion := jobs_without_completion;
     status_breakdown :=
       if (0 <? jobs_without_completion)%nat
       then value_counts_sorted (job_status <$> incomplete_df)
       else [];
     durations :=
       duration_statistics "input_transfer_duration" (input_transfer_duration <$> df)
       ++ duration_statistics "job_duration" (job_duration <$> df)
       ++ duration_statistics "output_transfer_duration" (output_transfer_duration <$> df)
       ++ duration_statistics "total_duration" (total_duration <$> df) |}.

(** The two files [main] touches: the history (its parsed list of ads, when
    the file exists) and the parquet table (the frame it holds, when the
    file exists).  Reading back a written table gives the same frame. *)
Record Files : Type := {
  json_file : option (list (gmap string pyval));
  parquet_file : option (list JobRecord)
}.

Record Run : Type := {
  exit_code : Z;
  printed : option Statistics;
  files_after : Files
}.

(** [main()]: an existing table is loaded instead of converting the
    history, and is then not written again. *)
Definition main (fs : Files) : Run :=
  match json_file fs with
  | None => {| exit_code := 1; printed := None; files_after := fs |}
  | Some data =>
      let '(df, loaded_from_existing) :=
        match parquet_file fs with
        | Some df => (df, true)
        | None => (parse_condor_history data, false)
        end in
      if (length df =? 0)%nat
      then {| exit_code := 1; printed := None; files_after := fs |}
      else
        {| exit_code := 0;
           printed := Some (print_statistics df);
           files_after :=
             if loaded_from_existing then fs
             else {| json_file := json_file fs; parquet_file := Some df |} |}
  end.

End CondorStatistics.

(** ** analyze_jobs.py: the driver that runs the other scripts *)

Module AnalyzeJobs.
Import Stdlib.Strings.Ascii.

(** [\d] on ASCII text, where it is [0-9].  On a [str] Python's [\d] also
    matches the decimal digits of other scripts; what is proved of the
    search below is proved of ASCII file names. *)
Definition is_digit (c : ascii) : bool :=
  (48 <=? nat_of_ascii c)%nat && (nat_of_ascii c <=? 57)%nat.

(** The longest prefix made of digits. *)
Fixpoint leading_digits (s : string) : string :=
  match s with
  | String c rest => if is_digit c then String c (leading_digits rest) else ""
  | "" => ""
  end.

(** [re.search(r'(\d+)', s)] and its group 1: the first digit found opens
    the match, which then takes every digit that follows. *)
Fixpoint search_digits (s : string) : option string :=
  match s with
  | String c rest =>
      if is_digit c then Some (String c (leading_digits rest))
      else search_digits rest
  | "" => None
  end.

(** The pieces of a path between its slashes. *)
Fixpoint split_slash (cur s : string) : list string :=
  match s with
  | String c rest =>
      if Ascii.eqb c "/"%char then cur :: split_slash "" rest
      else split_slash (cur +:+ String c "") rest
  | "" => [cur]
  end.

(** [PurePosixPath(p).name]: the last component, empty and [.] pieces
    aside; empty when there is none. *)
Definition name (p : string) : string :=
  List.last
    (List.filter (λ part, negb (String.eqb part "" || String.eqb part "."))
       (split_slash "" p))
    "".

(** [s.rfind('.')], as a position counted from the left. *)
Fixpoint rfind_dot (s : string) : option nat :=
  match s with
  | String c rest =>
      match rfind_dot rest with
      | Some i => Some (S i)
      | None => if Ascii.eqb c "."%char then Some 0%nat else None
      end
  | "" => None
  end.

(** [Path(p).stem] (Python 3.12): the name without its last suffix; a
    leading or a trailing dot does not start a suffix. *)
Definition stem (p : string) : string :=
  let n := name p in
  match rfind_dot n with
  | Some i =>
      if (0 <? i)%nat && (i <? String.length n - 1)%nat
      then String.substring 0 i n
      else n
  | None => n
  end.

Definition extract_job_id (json_file : string) : option string :=
  search_digits (stem json_file).

Record Args : Type := {
  json_file : string;
  output_dir : option string;
  resolution : Z;
  gantt : bool;
  gantt_jobs : option Z;
  overwrite_parquet : bool
}.

(** The five command lines; each one names its script and, through the
    output directory, the files it reads and writes. *)
Inductive Command : Type :=
| ConvertJsonToParquet
| PlotCompletionCurve
| PlotGanttPhases (jobs : option Z)
| PlotDurationHistograms
| PlotConcurrentJobs (resolution : Z).

(** What [main] finds outside: whether the history file exists, whether
    the output directory already holds a table, and whether a command,
    once run, exits with status zero ([run_command]).  Every command is
    taken to start: [subprocess.run] raising because the program cannot be
    launched is outside this model. *)
Record World : Type := {
  json_exists : bool;
  parquet_exists : string → bool;
  run_command : Command → bool
}.

Record Run : Type := {
  exit_code : Z;
  directory : option string;
  commands : list Command
}.

(** [if args.output_dir:] and the naming after the job id. *)
Definition choose_output_dir (args : Args) : string :=
  match output_dir args with
  | Some d =>
      if negb (String.eqb d "") then d
      else
        match extract_job_id (json_file args) with
        | Some job_id => "analysis_" +:+ job_id
        | None => "analysis_output"
        end
  | None =>
      match extract_job_id (json_file args) with
      | Some job_id => "analysis_" +:+ job_id
      | None => "analysis_output"
      end
  end.

(** [if args.gantt_jobs:] before [--jobs] is appended. *)
Definition gantt_limit (args : Args) : option Z :=
  match gantt_jobs args with
  | Some n => if n =? 0 then None else Some n
  | None => None
  end.

(** Steps 2 to 5: every plot is attempted, its command recorded, and a
    failure only clears [all_success]. *)
Definition plot_commands (args : Args) : list Command :=
  [PlotCompletionCurve]
  ++ (if gantt args then [PlotGanttPhases (gantt_limit args)] else [])
  ++ [PlotDurationHistograms; PlotConcurrentJobs (resolution args)].

Definition main (args : Args) (w : World) : Run :=
  if negb (json_exists w)
  then {| exit_code := 1; directory := None; commands := [] |}
  else
    let dir := choose_output_dir args in
    let skip_conversion := parquet_exists w dir && negb (overwrite_parquet args) in
    if negb skip_conversion && negb (run_command w ConvertJsonToParquet)
    then {| exit_code := 1; directory := Some dir;
            commands := [ConvertJsonToParquet] |}
    else
      let plots := plot_commands args in
      let all_success := forallb (run_command w) plots in
      {| exit_code := if all_success then 0 else 1;
         directory := Some dir;
         commands :=
           (if skip_conversion then [] else [ConvertJsonToParquet]) ++ plots |}.

End AnalyzeJobs.

(** ** ALMA_Imaging/generate_input_lists.py: the input files in chunks *)

Module GenerateInputLists.

(** Python's [round] on an exact quotient: to the nearest integer, a tie
    going to the even one. *)
Definition py_round (q : Q) : Z :=
  let f := Qfloor q in
  match (q - inject_Z f ?= 1 # 2)%Q with
  | Lt => f
  | Gt => f + 1
  | Eq => if Z.even f then f else f + 1
  end.

(** [range(0, stop, step)] for a positive step; a negative step from 0
    towards a non-negative [stop] gives nothing. *)
Definition range_from_zero (stop step : Z) : list Z :=
  if step <? 0 then []
  else (λ k : nat, Z.of_nat k * step) <$> seq 0 (Z.to_nat (- ((- stop) / step))).

(** [xs[lo:lo + n]] for [0 <= lo] and [0 < n]. *)
Definition slice {A : Type} (xs : list A) (lo n : Z) : list A :=
  take (Z.to_nat n) (drop (Z.to_nat lo) xs).

Definition str_le (a b : string) : Prop := String.leb a b = true.

#[global] Instance str_le_dec : RelDecision str_le.
Proof. intros a b. unfold str_le. apply _. Defined.

(** [generate_input_files()]: the lines written to the output file, one
    list of input files per line, before the paths are made absolute and
    rewritten. *)
Definition generate_input_files (infiles : list string) (breadth : Z)
    : outcome (list (list string)) :=
  let infiles := merge_sort str_le infiles in
  let num_files := Z.of_nat (length infiles) in
  if breadth =? 0 then Raised ZeroDivisionError
  else
    let stride := py_round (inject_Z num_files / inject_Z breadth)%Q in
    if stride =? 0 then Raised ValueError
    else
      Returned ((λ ii, slice infiles ii stride) <$> range_from_zero num_files stride).

End GenerateInputLists.

(** * Properties *)

(** ** Job ads used as concrete inputs *)

Module Ads.

(** A job removed from the queue while returning its output. *)
Definition removed_during_output : gmap string pyval :=
  <["JobStatus" := PInt 3]>
    (<["JobCurrentStartTransferOutputDate" := PInt 100]>
       (<["CompletionDate" := PInt 150]> ∅)).

(** A completed job whose input transfer ends before it starts. *)
Definition skewed_input : gmap string pyval :=
  <["JobStatus" := PInt 4]>
    (<["JobCurrentStartTransferInputDate" := PInt 100]>
       (<["JobCurrentFinishTransferInputDate" := PInt 50]> ∅)).

(** A job whose start date is the epoch itself. *)
Definition started_at_epoch : gmap string pyval :=
  <["JobCurrentStartDate" := PInt 0]> ∅.

(** A completed job with no recorded exit code. *)
Definition completed_without_exit_code : gmap string pyval :=
  <["JobStatus" := PInt 4]> ∅.

(** A job that ran from [s] to [c]. *)
Definition ran (s c : Z) : gmap string pyval :=
  <["JobCurrentStartDate" := PInt s]> (<["CompletionDate" := PInt c]> ∅).

End Ads.

(** ** Truthiness and the conversions guarded by it *)

Section Truthiness.

Lemma truthy_number (v : pyval) : truthy v = true ↔ is_Some (number v).
Proof.
  destruct v as [|z]; simpl.
  - split; [discriminate | intros [x Hx]; discriminate].
  - destruct (z =? 0); simpl; split; eauto; try discriminate.
    intros [x Hx]; discriminate.
Qed.

Lemma number_Some (v : pyval) (z : Z) :
  number v = Some z ↔ v = PInt z ∧ z ≠ 0.
Proof.
  destruct v as [|y]; simpl.
  - split; [discriminate | intros [? _]; discriminate].
  - destruct (Z.eqb_spec y 0) as [->|Hy]; split.
    + discriminate.
    + intros [[= <-] Hz]. congruence.
    + intros [= <-]. auto.
    + intros [[= <-] _]. reflexivity.
Qed.

Lemma number_None (v : pyval) :
  number v = None ↔ v = PNone ∨ v = PInt 0.
Proof.
  destruct v as [|y]; simpl.
  - split; auto.
  - destruct (Z.eqb_spec y 0) as [->|Hy]; split; auto.
    + discriminate.
    + intros [?|[= ?]]; [discriminate | contradiction].
Qed.

Lemma to_datetime_number (v : pyval) :
  CondorToParquet.to_datetime v = fromtimestamp <$> number v.
Proof.
  unfold CondorToParquet.to_datetime.
  destruct (truthy v) eqn:Hv; [reflexivity|].
  destruct (number v) eqn:Hn; [|reflexivity].
  assert (truthy v = true) by (apply truthy_number; eauto). congruence.
Qed.

Lemma duration_between_number (a b : pyval) :
  CondorToParquet.duration_between a b =
  match number a, number b with
  | Some x, Some y => Some (y - x)
  | _, _ => None
  end.
Proof.
  unfold CondorToParquet.duration_between.
  destruct (truthy a) eqn:Ha, (truthy b) eqn:Hb; simpl; try reflexivity.
  - destruct (number a); [|reflexivity].
    destruct (number b) eqn:Hn; [|reflexivity].
    assert (truthy b = true) by (apply truthy_number; eauto). congruence.
  - destruct (number a) eqn:Hn; [|reflexivity].
    assert (truthy a = true) by (apply truthy_number; eauto). congruence.
  - destruct (number a) eqn:Hn; [|reflexivity].
    assert (truthy a = true) by (apply truthy_number; eauto). congruence.
Qed.

Lemma ne_true (a b : pyval) : ne a b = true ↔ a ≠ b.
Proof.
  destruct a as [|x], b as [|y]; simpl; split; try congruence; try discriminate.
  - intros H [= ->]. rewrite Z.eqb_refl in H. discriminate.
  - intros H. destruct (Z.eqb_spec x y); [congruence | reflexivity].
Qed.

End Truthiness.

(** ** The record normaliser (condor_to_parquet.py) *)

Section Normaliser.
Import CondorToParquet.

(** The spec's invariant for one derived duration [d] with endpoint
    instants [s] and [e]: present exactly when both endpoints are, and
    never negative. *)
Definition duration_wellformed (d : option Z) (s e : option datetime) : Prop :=
  (is_Some d ↔ is_Some s ∧ is_Some e) ∧ ∀ x, d = Some x → 0 ≤ x.

Definition durations_wellformed (r : JobRecord) : Prop :=
  duration_wellformed (input_transfer_duration r) (input_start_time r) (input_end_time r)
  ∧ duration_wellformed (job_duration r) (job_start_time r) (job_end_time r)
  ∧ duration_wellformed (output_transfer_duration r) (output_start_time r) (output_end_time r)
  ∧ duration_wellformed (total_duration r) (job_start_time r) (completion_time r).

(** What the code guarantees instead, for the duration [d] between the
    instants [s] and [e] read from two fields of the ad: present exactly
    when both instants are, and then the difference of the two raw
    timestamps the instants were converted from, hence negative exactly
    when the end timestamp is smaller than the start timestamp.  Nothing
    is said of the distance between the converted instants: they are
    local wall-clock times, and the duration is not computed from them. *)
Definition duration_consistent (job : gmap string pyval)
    (start_field end_field : string)
    (d : option Z) (s e : option datetime) : Prop :=
  (is_Some d ↔ is_Some s ∧ is_Some e)
  ∧ ∀ x, d = Some x →
      ∃ a b, job !! start_field = Some (PInt a)
           ∧ job !! end_field = Some (PInt b)
           ∧ s = Some (fromtimestamp a) ∧ e = Some (fromtimestamp b)
           ∧ x = b - a ∧ (0 ≤ x ↔ a ≤ b).

(** The raw fields that become instants, each with its column. *)
Definition instant_columns : list (string * (JobRecord → option datetime)) :=
  [ ("JobCurrentStartDate", job_start_time);
    ("JobCurrentStartTransferInputDate", input_start_time);
    ("JobCurrentFinishTransferInputDate", input_end_time);
    ("JobCurrentStartTransferOutputDate", output_start_time);
    ("JobCurrentFinishTransferOutputDate", output_end_time);
    ("JobFinishedHookTime", job_end_time);
    ("CompletionDate", completion_time) ].

(** The spec's reading of one instant field: a missing field gives a
    missing instant, and any number, zero included, gives that instant. *)
Definition zero_kept_apart (field : string) (col : JobRecord → option datetime) : Prop :=
  ∀ job : gmap string pyval,
    (job !! field = None → col (parse_job job) = None)
    ∧ (∀ z, job !! field = Some (PInt z) →
            col (parse_job job) = Some (fromtimestamp z)).

Lemma get_number (job : gmap string pyval) (field : string) (z : Z) :
  number (get job field) = Some z → job !! field = Some (PInt z).
Proof.
  intros H. apply number_Some in H as [H _]. unfold get in H.
  destruct (job !! field) as [v|]; [congruence | discriminate].
Qed.

Lemma duration_consistent_between (job : gmap string pyval) (f g : string) :
  duration_consistent job f g
    (duration_between (get job f) (get job g))
    (to_datetime (get job f)) (to_datetime (get job g)).
Proof.
  rewrite duration_between_number, !to_datetime_number.
  destruct (number (get job f)) as [x|] eqn:Hx,
           (number (get job g)) as [y|] eqn:Hy; simpl; split.
  - split; eauto.
  - intros d [= <-]. exists x, y.
    split; [apply get_number, Hx|]. split; [apply get_number, Hy|].
    repeat split; lia.
  - split; [intros [? [=]] | intros [_ [? [=]]]].
  - intros d [=].
  - split; [intros [? [=]] | intros [[? [=]] _]].
  - intros d [=].
  - split; [intros [? [=]] | intros [[? [=]] _]].
  - intros d [=].
Qed.

(** C4, as the code has it: every derived duration of a normalised record
    is present if and only if both of its endpoint instants are present,
    and a present duration is the end timestamp of the ad minus its start
    timestamp, in seconds, the two instants being the conversions of
    these timestamps; it is non-negative exactly when the end timestamp
    is not smaller than the start timestamp. *)
Theorem durations_follow_endpoints (job : gmap string pyval) :
  let r := parse_job job in
  duration_consistent job
    "JobCurrentStartTransferInputDate" "JobCurrentFinishTransferInputDate"
    (input_transfer_duration r) (input_start_time r) (input_end_time r)
  ∧ duration_consistent job "JobCurrentStartDate" "JobFinishedHookTime"
      (job_duration r) (job_start_time r) (job_end_time r)
  ∧ duration_consistent job
      "JobCurrentStartTransferOutputDate" "JobCurrentFinishTransferOutputDate"
      (output_transfer_duration r) (output_start_time r) (output_end_time r)
  ∧ duration_consistent job "JobCurrentStartDate" "CompletionDate"
      (total_duration r) (job_start_time r) (completion_time r).
Proof.
  simpl. split; [|split; [|split]]; apply duration_consistent_between.
Qed.

(** C4 as stated fails: the input transfer of [Ads.skewed_input] lasts
    -50 seconds in its normalised record. *)
Lemma negative_duration_is_kept :
  input_transfer_duration (parse_job Ads.skewed_input) = Some (-50)
  ∧ ¬ durations_wellformed (parse_job Ads.skewed_input).
Proof.
  split; [reflexivity|].
  intros [[_ Hneg] _].
  specialize (Hneg (-50) eq_refl). lia.
Qed.

(** C5: the status of a raw record is its [JobStatus] field and its exit
    code its [ExitCode] field, each 0 when the field is missing; the
    record is marked failed exactly when this status is not 4 or this
    exit code is not 0.  So an ad with status 4 and exit code 0 is not
    failed, an ad with status 4 and exit code 1 is failed, and an ad with
    status 3 is failed whatever its exit code, or without one.
    gantt_chart.py stamps the same flag on every phase record of the
    job. *)
Theorem failed_iff_status_or_exit_code (job : gmap string pyval) :
  let r := parse_job job in
  let status := default (PInt 0) (job !! "JobStatus") in
  let code := default (PInt 0) (job !! "ExitCode") in
  job_status r = status
  ∧ exit_code r = code
  ∧ (failed r = true ↔ status ≠ PInt 4 ∨ code ≠ PInt 0)
  ∧ (job !! "JobStatus" = Some (PInt 4) → job !! "ExitCode" = Some (PInt 0) →
     failed r = false)
  ∧ (job !! "JobStatus" = Some (PInt 4) → job !! "ExitCode" = Some (PInt 1) →
     failed r = true)
  ∧ (job !! "JobStatus" = Some (PInt 3) → failed r = true)
  ∧ Forall (λ p, GanttChart.failed p = failed r) (GanttChart.parse_job job).
Proof.
  simpl. unfold get_default.
  split; [|split; [|split; [|split; [|split; [|split]]]]].
  - destruct (job !! "JobStatus"); reflexivity.
  - destruct (job !! "ExitCode"); reflexivity.
  - rewrite orb_true_iff, !ne_true.
    destruct (job !! "JobStatus"), (job !! "ExitCode"); reflexivity.
  - intros -> ->. reflexivity.
  - intros -> ->. reflexivity.
  - intros ->. reflexivity.
  - unfold GanttChart.parse_job, GanttChart.phase_record.
    repeat first [ apply Forall_app_2 | apply Forall_nil_2
                 | apply Forall_cons_2; simpl
                 | reflexivity
                 | match goal with
                   | |- Forall _ (if ?c then _ else _) => destruct c
                   | |- Forall _ (match ?o with Some _ => _ | None => _ end) =>
                       destruct o
                   end ].
Qed.

(** The three scenarios of C5 on concrete ads, and a failed job without any
    [ExitCode] field. *)
Lemma failed_iff_status_or_exit_code_witness :
  failed (parse_job (<["JobStatus" := PInt 4]> (<["ExitCode" := PInt 0]> ∅))) = false
  ∧ failed (parse_job (<["JobStatus" := PInt 4]> (<["ExitCode" := PInt 1]> ∅))) = true
  ∧ failed (parse_job (<["JobStatus" := PInt 3]> (<["ExitCode" := PInt 0]> ∅))) = true
  ∧ failed (parse_job (<["JobStatus" := PInt 3]> ∅)) = true.
Proof.
  split; [|split; [|split]].
  - destruct (failed_iff_status_or_exit_code
                (<["JobStatus" := PInt 4]> (<["ExitCode" := PInt 0]> ∅)))
      as (_ & _ & _ & H & _).
    apply H; reflexivity.
  - destruct (failed_iff_status_or_exit_code
                (<["JobStatus" := PInt 4]> (<["ExitCode" := PInt 1]> ∅)))
      as (_ & _ & _ & _ & H & _).
    apply H; reflexivity.
  - destruct (failed_iff_status_or_exit_code
                (<["JobStatus" := PInt 3]> (<["ExitCode" := PInt 0]> ∅)))
      as (_ & _ & _ & _ & _ & H & _).
    apply H; reflexivity.
  - destruct (failed_iff_status_or_exit_code (<["JobStatus" := PInt 3]> ∅))
      as (_ & _ & _ & _ & _ & H & _).
    apply H; reflexivity.
Defined.

(** C10: without a [JobStatus] field the status is 0 and the job is
    failed, whatever its exit code; with [JobStatus] 4 and no [ExitCode]
    field the exit code is 0 and the job is not failed. *)
Theorem missing_status_and_exit_code_defaults (job : gmap string pyval) :
  let r := parse_job job in
  (job !! "JobStatus" = None → job_status r = PInt 0 ∧ failed r = true)
  ∧ (job !! "JobStatus" = Some (PInt 4) → job !! "ExitCode" = None →
     exit_code r = PInt 0 ∧ failed r = false).
Proof.
  simpl. unfold get_default. split.
  - intros ->. split; reflexivity.
  - intros -> ->. split; reflexivity.
Qed.

(** Both defaults of C10 at work on concrete ads. *)
Lemma missing_status_and_exit_code_defaults_witness :
  failed (parse_job (<["ExitCode" := PInt 0]> ∅)) = true
  ∧ failed (parse_job Ads.completed_without_exit_code) = false.
Proof.
  split.
  - apply (proj1 (missing_status_and_exit_code_defaults (<["ExitCode" := PInt 0]> ∅))).
    reflexivity.
  - apply (proj2 (missing_status_and_exit_code_defaults Ads.completed_without_exit_code));
      reflexivity.
Defined.

(** Every instant column is the guarded conversion of its raw field. *)
Lemma instant_column_number (job : gmap string pyval) (field : string)
    (col : JobRecord → option datetime) :
  (field, col) ∈ instant_columns →
  col (parse_job job) = fromtimestamp <$> number (get job field).
Proof.
  unfold instant_columns. rewrite !elem_of_cons, elem_of_nil.
  intros H. repeat destruct H as [[= -> ->]|H]; try (apply to_datetime_number).
  destruct H.
Qed.

(** A field holding zero can be removed from the ad without changing the
    row built by condor_to_parquet.py ... *)
Lemma zero_field_can_be_deleted (job : gmap string pyval) (field : string)
    (col : JobRecord → option datetime) :
  (field, col) ∈ instant_columns →
  job !! field = Some (PInt 0) →
  parse_job job = parse_job (delete field job).
Proof.
  unfold instant_columns. rewrite !elem_of_cons, elem_of_nil.
  intros H Hz.
  repeat destruct H as [[= -> ->]|H]; try destruct H;
    unfold parse_job, get, get_default;
    rewrite ?lookup_delete_eq, ?Hz;
    rewrite !lookup_delete_ne by discriminate; reflexivity.
Qed.

(** ... nor the phase records built by gantt_chart.py. *)
Lemma gantt_zero_field_can_be_deleted (job : gmap string pyval) (field : string)
    (col : JobRecord → option datetime) :
  (field, col) ∈ instant_columns →
  job !! field = Some (PInt 0) →
  GanttChart.parse_job job = GanttChart.parse_job (delete field job).
Proof.
  unfold instant_columns. rewrite !elem_of_cons, elem_of_nil.
  intros H Hz.
  repeat destruct H as [[= -> ->]|H]; try destruct H;
    unfold GanttChart.parse_job, get, get_default;
    rewrite ?lookup_delete_eq, ?Hz;
    rewrite !lookup_delete_ne by discriminate; reflexivity.
Qed.

(** C9, as the code has it: a missing field and a [null] give a missing
    instant, a non-zero number gives the instant of that timestamp, and a
    field holding zero is treated like a missing one: its instant is
    missing, and both condor_to_parquet.py and gantt_chart.py produce what
    they produce for the ad without that field. *)
Theorem zero_timestamp_reads_as_absent (job : gmap string pyval) (field : string)
    (col : JobRecord → option datetime) :
  (field, col) ∈ instant_columns →
  (job !! field = None → col (parse_job job) = None)
  ∧ (job !! field = Some PNone → col (parse_job job) = None)
  ∧ (∀ z, z ≠ 0 → job !! field = Some (PInt z) →
          col (parse_job job) = Some (fromtimestamp z))
  ∧ (job !! field = Some (PInt 0) →
     col (parse_job job) = None
     ∧ parse_job job = parse_job (delete field job)
     ∧ GanttChart.parse_job job = GanttChart.parse_job (delete field job)).
Proof.
  intros Hin. rewrite (instant_column_number job field col Hin).
  unfold get. split; [|split; [|split]].
  - intros ->. reflexivity.
  - intros ->. reflexivity.
  - intros z Hz ->. simpl. destruct (Z.eqb_spec z 0); [contradiction | reflexivity].
  - intros Hz. split; [rewrite Hz; reflexivity|]. split.
    + exact (zero_field_can_be_deleted job field col Hin Hz).
    + exact (gantt_zero_field_can_be_deleted job field col Hin Hz).
Qed.

(** The start date of a job, missing, non-zero and zero. *)
Lemma zero_timestamp_reads_as_absent_witness :
  job_start_time (parse_job ∅) = None
  ∧ job_start_time (parse_job (Ads.ran 1000 1010)) = Some (fromtimestamp 1000)
  ∧ job_start_time (parse_job Ads.started_at_epoch) = None
  ∧ parse_job Ads.started_at_epoch
    = parse_job (delete "JobCurrentStartDate" Ads.started_at_epoch).
Proof.
  assert (Hin : ("JobCurrentStartDate", job_start_time) ∈ instant_columns)
    by (apply list_elem_of_here).
  split; [|split; [|split]].
  - destruct (zero_timestamp_reads_as_absent ∅ _ _ Hin) as (Habsent & _).
    apply Habsent. reflexivity.
  - destruct (zero_timestamp_reads_as_absent (Ads.ran 1000 1010) _ _ Hin)
      as (_ & _ & Hnumber & _).
    apply Hnumber; [lia | reflexivity].
  - destruct (zero_timestamp_reads_as_absent Ads.started_at_epoch _ _ Hin)
      as (_ & _ & _ & Hzero).
    apply Hzero. reflexivity.
  - destruct (zero_timestamp_reads_as_absent Ads.started_at_epoch _ _ Hin)
      as (_ & _ & _ & Hzero).
    apply Hzero. reflexivity.
Defined.

(** C9 as stated fails: a start date of zero is a present field, yet the
    record has no start instant, exactly as if the field were missing. *)
Lemma epoch_start_is_dropped :
  Ads.started_at_epoch !! "JobCurrentStartDate" = Some (PInt 0)
  ∧ job_start_time (parse_job Ads.started_at_epoch) = job_start_time (parse_job ∅)
  ∧ ¬ zero_kept_apart "JobCurrentStartDate" job_start_time.
Proof.
  split; [reflexivity | split; [reflexivity|]].
  intros H. destruct (H Ads.started_at_epoch) as [_ Hz].
  specialize (Hz 0 eq_refl). discriminate Hz.
Qed.

End Normaliser.

(** ** The phase decomposition (gantt_chart.py, plot_gantt_phases.py) *)

Section PhaseDecomposer.
Import GanttChart.


Lemma truthy_of_number (v : pyval) (z : Z) : number v = Some z → truthy v = true.
Proof. intros H. apply truthy_number. eauto. Qed.

Lemma falsy_of_number (v : pyval) : number v = None → truthy v = false.
Proof.
  intros H. destruct (truthy v) eqn:Hv; [|reflexivity].
  apply truthy_number in Hv. destruct Hv as [z Hz]. congruence.
Qed.






(** C6 on gantt_chart.py: the input transfer of [Ads.skewed_input] ends 50
    seconds before it starts, and the interval is emitted all the same. *)
Theorem gantt_chart_keeps_reversed_interval :
  parse_job Ads.skewed_input =
    [ {| job_id := PNone; cluster_id := PNone; phase := InputTransfer;
         start_time := fromtimestamp 100; end_time := fromtimestamp 50;
         duration := -50; failed := false |} ]
  ∧ ∃ p, p ∈ parse_job Ads.skewed_input ∧ end_time p < start_time p.
Proof.
  split; [reflexivity|].
  eexists. split; [apply list_elem_of_here|]. simpl. unfold fromtimestamp. lia.
Qed.

Lemma total_seconds_positive (td : timedelta) :
  Qle_bool (total_seconds td) 0 = false ↔ 0 < td.
Proof.
  destruct (Qle_bool (total_seconds td) 0) eqn:H.
  - apply Qle_bool_iff in H. unfold Qle, total_seconds in H. simpl in H.
    split; [discriminate | lia].
  - split; [intros _ | reflexivity].
    destruct (Z_lt_le_dec 0 td) as [|Hle]; [assumption|].
    assert (Qle_bool (total_seconds td) 0 = true) as Habs
      by (apply Qle_bool_iff; unfold Qle, total_seconds; simpl; lia).
    congruence.
Qed.

Lemma phase_bar_forward (idx : nat) (ph : phase_name)
    (s e : option datetime) (b : PlotGanttPhases.Bar) :
  b ∈ PlotGanttPhases.phase_bar idx ph s e →
  PlotGanttPhases.bar_start b < PlotGanttPhases.bar_end b.
Proof.
  unfold PlotGanttPhases.phase_bar.
  destruct s as [x|], e as [y|]; rewrite ?elem_of_nil; try tauto.
  destruct (Qle_bool (total_seconds (y - x)) 0) eqn:H; simpl;
    rewrite ?elem_of_nil; try tauto.
  rewrite list_elem_of_singleton. intros ->. simpl.
  apply total_seconds_positive in H. lia.
Qed.

(** The sibling script plot_gantt_phases.py does discard them: every bar
    it draws ends strictly after it starts. *)
Lemma plot_gantt_phases_bars_forward (df_plot : list CondorToParquet.JobRecord)
    (b : PlotGanttPhases.Bar) :
  b ∈ PlotGanttPhases.plot_gantt_phases df_plot →
  PlotGanttPhases.bar_start b < PlotGanttPhases.bar_end b.
Proof.
  unfold PlotGanttPhases.plot_gantt_phases.
  rewrite list_elem_of_join. intros (bars & Hb & Hbars).
  apply elem_of_lookup_imap in Hbars as (i & row & -> & _).
  unfold PlotGanttPhases.row_bars in Hb.
  rewrite !elem_of_app in Hb.
  destruct Hb as [Hb|[Hb|Hb]]; eapply phase_bar_forward; exact Hb.
Qed.

End PhaseDecomposer.

(** ** The concurrency estimate (plot_concurrent_jobs.py) *)

Section Concurrency.
Import CondorToParquet Numpy PlotConcurrentJobs.

(** The occupancy interval of a job, when it has both instants. *)
Definition interval_of (row : JobRecord) : option (datetime * datetime) :=
  match job_start_time row, completion_time row with
  | Some s, Some e => Some (s, e)
  | _, _ => None
  end.

Definition intervals (df : list JobRecord) : list (datetime * datetime) :=
  omap interval_of df.

(** The number of intervals [[s, e)] that contain the instant [c]. *)
Fixpoint half_open_count (ivs : list (datetime * datetime)) (c : datetime) : Z :=
  match ivs with
  | [] => 0
  | (s, e) :: rest =>
      (if decide (s ≤ c ∧ c < e) then 1 else 0) + half_open_count rest c
  end.

(** The reading of C8: a resolution that is not positive is turned down,
    by whatever exception. *)
Definition resolution_checked : Prop :=
  ∀ (df : list JobRecord) (res : Z),
    res ≤ 0 → ∃ e, plot_concurrent_jobs df res = Raised e.

Lemma valid_row_cases (row : JobRecord) :
  (has_timing row = true
   ∧ ∃ s e, job_start_time row = Some s ∧ completion_time row = Some e
            ∧ interval_of row = Some (s, e))
  ∨ (has_timing row = false ∧ interval_of row = None).
Proof.
  unfold has_timing, interval_of.
  destruct (job_start_time row) as [s|], (completion_time row) as [e|]; simpl;
    [left | right | right | right]; try (split; reflexivity).
  split; [reflexivity|]. exists s, e. repeat split.
Qed.

Lemma valid_starts (df : list JobRecord) :
  omap job_start_time (List.filter has_timing df) = (intervals df).*1.
Proof.
  induction df as [|row df IH]; [reflexivity|].
  unfold intervals in *. cbn [List.filter omap list_omap].
  destruct (valid_row_cases row) as [(-> & s & e & Hs & He & ->)|(-> & ->)].
  - cbn [omap list_omap fmap list_fmap]. rewrite Hs. simpl. f_equal. exact IH.
  - exact IH.
Qed.

Lemma valid_completions (df : list JobRecord) :
  omap completion_time (List.filter has_timing df) = (intervals df).*2.
Proof.
  induction df as [|row df IH]; [reflexivity|].
  unfold intervals in *. cbn [List.filter omap list_omap].
  destruct (valid_row_cases row) as [(-> & s & e & Hs & He & ->)|(-> & ->)].
  - cbn [omap list_omap fmap list_fmap]. rewrite He. simpl. f_equal. exact IH.
  - exact IH.
Qed.

Lemma valid_length (df : list JobRecord) :
  length (List.filter has_timing df) = length (intervals df).
Proof.
  induction df as [|row df IH]; [reflexivity|].
  unfold intervals in *. cbn [List.filter omap list_omap].
  destruct (valid_row_cases row) as [(-> & s & e & Hs & He & ->)|(-> & ->)].
  - simpl. f_equal. exact IH.
  - exact IH.
Qed.

(** The vectorised selection counts the same rows as the half-open rule. *)
Lemma running_count (df : list JobRecord) (c : datetime) :
  Z.of_nat (length (running (List.filter has_timing df) c))
  = half_open_count (intervals df) c.
Proof.
  induction df as [|row df IH]; [reflexivity|].
  unfold intervals, running in *. cbn [List.filter omap list_omap].
  destruct (valid_row_cases row) as [(-> & s & e & Hs & He & ->)|(-> & ->)].
  - cbn [List.filter half_open_count]. rewrite Hs, He. cbn [cell_le cell_gt].
    destruct (Z.leb_spec s c), (Z.gtb_spec e c);
      destruct (decide (s ≤ c ∧ c < e)); try lia;
      cbn [andb length]; rewrite <- IH; lia.
  - exact IH.
Qed.

Lemma Qceiling_positive (x : Q) : (0 < x)%Q → 0 < Qceiling x.
Proof.
  intros Hx. rewrite Zlt_Qlt.
  eapply Qlt_le_trans; [exact Hx | apply Qle_ceiling].
Qed.

Lemma bins_positive (T0 T1 res : Z) :
  T0 < T1 → 0 < res →
  0 < Qceiling (total_seconds (T1 - T0) / inject_Z res)%Q.
Proof.
  intros HT Hres. apply Qceiling_positive.
  apply Qlt_shift_div_l.
  - change (inject_Z 0 < inject_Z res)%Q. rewrite <- Zlt_Qlt. exact Hres.
  - rewrite Qmult_0_l. unfold Qlt, total_seconds. simpl. lia.
Qed.

Lemma date_range_nth (start seconds : Z) (m i : nat) (d : datetime) :
  (i < m)%nat →
  nth i ((λ k : nat, start + Z.of_nat k * (seconds * 1000000)) <$> seq 0 m) d
  = start + Z.of_nat i * (seconds * 1000000).
Proof.
  intros Hi. apply nth_lookup_Some.
  rewrite list_lookup_fmap.
  assert (seq 0 m !! i = Some i) as -> by (apply lookup_seq; lia).
  reflexivity.
Qed.

(** The centre of bin [i] lies half a resolution after its left edge. *)
Lemma bin_center_closed_form (start seconds : Z) (m i : nat) :
  (i + 1 < m)%nat →
  bin_center_of
    ((λ k : nat, start + Z.of_nat k * (seconds * 1000000)) <$> seq 0 m) i
  = start + Z.of_nat i * (seconds * 1000000) + seconds * 500000.
Proof.
  intros Hi. unfold bin_center_of.
  rewrite !date_range_nth by lia.
  replace (start + Z.of_nat (i + 1) * (seconds * 1000000)
           - (start + Z.of_nat i * (seconds * 1000000)))
    with (seconds * 500000 * 2) by lia.
  rewrite Z.div_mul by lia. reflexivity.
Qed.

(** Whatever plot comes back, its counts are the half-open counts of its
    bin centres. *)
Lemma plot_counts (df : list JobRecord) (res : Z) (plot : ConcurrencyPlot) :
  plot_concurrent_jobs df res = Returned (Some plot) →
  concurrent_counts plot = half_open_count (intervals df) <$> bin_centers plot.
Proof.
  unfold plot_concurrent_jobs.
  destruct (length (List.filter has_timing df) =? 0)%nat; [discriminate|].
  destruct (minimum _) as [start_time|]; [|discriminate].
  destruct (maximum _) as [end_time|]; [|discriminate].
  destruct (res =? 0); [discriminate|].
  destruct (date_range _ _ _) as [time_bins|]; [|discriminate].
  destruct (maximum _) as [m|]; [|discriminate].
  intros [= <-]. simpl.
  apply list_fmap_ext. intros i c _. apply running_count.
Qed.

Lemma maximum_None (xs : list Z) : maximum xs = None → xs = [].
Proof. destruct xs; [reflexivity | discriminate]. Qed.

Lemma minimum_Some_length (xs : list Z) (m : Z) :
  minimum xs = Some m → length xs ≠ 0%nat.
Proof. destruct xs; [discriminate | simpl; lia]. Qed.

(** With a positive resolution and a time range of positive length the
    script gets to its plot: [ceil((T1 - T0) / resolution)] bins, the
    centre of bin [i] half a resolution after [T0 + i * resolution]. *)
Lemma plot_of_positive_resolution (df : list JobRecord) (res T0 T1 : Z) :
  minimum (intervals df).*1 = Some T0 →
  maximum (intervals df).*2 = Some T1 →
  T0 < T1 → 0 < res →
  ∃ plot, plot_concurrent_jobs df res = Returned (Some plot)
    ∧ bin_centers plot =
        (λ i : nat, T0 + Z.of_nat i * (res * 1000000) + res * 500000)
          <$> seq 0 (Z.to_nat (Qceiling (total_seconds (T1 - T0) / inject_Z res)%Q))
    ∧ 0 < Qceiling (total_seconds (T1 - T0) / inject_Z res)%Q.
Proof.
  intros Hmin Hmax HT Hres.
  pose proof (bins_positive T0 T1 res HT Hres) as Hbins.
  unfold plot_concurrent_jobs.
  rewrite valid_starts, valid_completions, valid_length, Hmin, Hmax.
  apply minimum_Some_length in Hmin. rewrite length_fmap in Hmin.
  destruct (Nat.eqb_spec (length (intervals df)) 0) as [|_]; [contradiction|].
  destruct (Z.eqb_spec res 0) as [|_]; [lia|].
  set (n := Qceiling (total_seconds (T1 - T0) / inject_Z res)%Q) in *.
  unfold date_range.
  destruct (Z.ltb_spec (n + 1) 0) as [|_]; [lia|].
  rewrite length_fmap, length_seq.
  replace (Z.to_nat (n + 1) - 1)%nat with (Z.to_nat n) by lia.
  set (centers := bin_center_of _ <$> seq 0 (Z.to_nat n)).
  assert (Hcenters : centers =
    (λ i : nat, T0 + Z.of_nat i * (res * 1000000) + res * 500000)
      <$> seq 0 (Z.to_nat n)).
  { subst centers. apply list_fmap_ext. intros k i Hk.
    apply lookup_seq in Hk as [-> Hk].
    apply bin_center_closed_form. lia. }
  destruct (maximum (_ <$> centers)) as [m|] eqn:Hm.
  - eexists. split; [reflexivity|]. simpl. split; [exact Hcenters | exact Hbins].
  - apply maximum_None in Hm. apply (f_equal length) in Hm.
    subst centers. rewrite !length_fmap, length_seq in Hm. simpl in Hm. lia.
Qed.

(** C1: whenever a plot is produced, it has one count per bin centre, and
    the count reported for a bin is the number of jobs with both instants
    whose interval contains the centre [c] of that bin under the half-open
    rule [jobStart <= c < completion].  A plot is produced for every
    positive resolution once the latest completion [T1] lies after the
    earliest start [T0]; the centre of bin [i] is then
    [T0 + i * resolution + resolution / 2]. *)
Theorem concurrent_count_is_half_open_count (df : list JobRecord) (res : Z) :
  (∀ plot : ConcurrencyPlot,
     plot_concurrent_jobs df res = Returned (Some plot) →
     length (concurrent_counts plot) = length (bin_centers plot)
     ∧ ∀ (i : nat) (c : datetime),
         bin_centers plot !! i = Some c →
         concurrent_counts plot !! i = Some (half_open_count (intervals df) c))
  ∧ (∀ T0 T1 : datetime,
       minimum (intervals df).*1 = Some T0 →
       maximum (intervals df).*2 = Some T1 →
       T0 < T1 → 0 < res →
       ∃ plot, plot_concurrent_jobs df res = Returned (Some plot)
         ∧ bin_centers plot =
             (λ i : nat, T0 + Z.of_nat i * (res * 1000000) + res * 500000)
               <$> seq 0 (Z.to_nat
                     (Qceiling (total_seconds (T1 - T0) / inject_Z res)%Q))).
Proof.
  split.
  - intros plot Hplot. apply plot_counts in Hplot. rewrite Hplot. split.
    + apply length_fmap.
    + intros i c Hc. rewrite list_lookup_fmap, Hc. reflexivity.
  - intros T0 T1 Hmin Hmax HT Hres.
    destruct (plot_of_positive_resolution df res T0 T1 Hmin Hmax HT Hres)
      as (plot & Hplot & Hcenters & _).
    exists plot. split; assumption.
Qed.

(** The spec's scenario, moved away from the epoch: three jobs running over
    [[1000, 1010)], [[1005, 1015)] and [[1020, 1025)], sampled every 5 s. *)
Definition three_jobs : list JobRecord :=
  parse_condor_history [Ads.ran 1000 1010; Ads.ran 1005 1015; Ads.ran 1020 1025].

Definition three_jobs_plot : ConcurrencyPlot :=
  {| bin_centers :=
       [1002500000; 1007500000; 1012500000; 1017500000; 1022500000];
     bin_centers_hours :=
       [2500000 # 3600000000; 7500000 # 3600000000; 12500000 # 3600000000;
        17500000 # 3600000000; 22500000 # 3600000000]%Q;
     concurrent_counts := [1; 2; 1; 0; 1];
     max_concurrent := 2;
     mean_concurrent := (5 # 5)%Q;
     median_concurrent := 1%Q |}.

(** The table of a single job that never started. *)
Definition idle_job : list JobRecord := parse_condor_history [∅].

(** The scenario of C1: the five bins count 1, 2, 1, 0 and 1 jobs. *)
Lemma concurrent_count_is_half_open_count_witness :
  length (concurrent_counts three_jobs_plot) = length (bin_centers three_jobs_plot)
  ∧ concurrent_counts three_jobs_plot !! 1%nat
    = Some (half_open_count (intervals three_jobs) 1007500000)
  ∧ half_open_count (intervals three_jobs) 1007500000 = 2.
Proof.
  destruct (concurrent_count_is_half_open_count three_jobs 5) as [Hcounts _].
  destruct (Hcounts three_jobs_plot) as [Hlen Hcount]; [reflexivity|].
  split; [exact Hlen|]. split; [|reflexivity].
  apply Hcount. reflexivity.
Defined.

(** Nothing looks at a resolution of zero before the number of bins is
    worked out, where the division stops the script. *)
Lemma zero_resolution_divides_by_zero (df : list JobRecord) :
  intervals df ≠ [] → plot_concurrent_jobs df 0 = Raised ZeroDivisionError.
Proof.
  intros Hsome. unfold plot_concurrent_jobs.
  rewrite valid_starts, valid_completions, valid_length.
  destruct (intervals df) as [|[s e] ivs]; [congruence|]. reflexivity.
Qed.

(** C8, as the code has it: the resolution is never checked.  A table
    without any job that has both instants ends the call quietly for every
    resolution, positive or not; and every positive resolution over a time
    range of positive length goes through to a plot of
    [ceil((T1 - T0) / resolution)] bins. *)
Theorem resolution_is_never_checked (df : list JobRecord) (res : Z) :
  (intervals df = [] → plot_concurrent_jobs df res = Returned None)
  ∧ (∀ T0 T1, minimum (intervals df).*1 = Some T0 →
              maximum (intervals df).*2 = Some T1 →
              T0 < T1 → 0 < res →
       ∃ plot, plot_concurrent_jobs df res = Returned (Some plot)
         ∧ Z.of_nat (length (bin_centers plot))
           = Qceiling (total_seconds (T1 - T0) / inject_Z res)%Q).
Proof.
  split.
  - intros Hnone. unfold plot_concurrent_jobs.
    rewrite valid_length, Hnone. reflexivity.
  - intros T0 T1 Hmin Hmax HT Hres.
    destruct (plot_of_positive_resolution df res T0 T1 Hmin Hmax HT Hres)
      as (plot & Hplot & Hcenters & Hbins).
    exists plot. split; [exact Hplot|].
    rewrite Hcenters, length_fmap, length_seq. lia.
Qed.

(** The two cases of C8 on concrete tables. *)
Lemma resolution_is_never_checked_witness :
  plot_concurrent_jobs idle_job (-30) = Returned None
  ∧ ∃ plot, plot_concurrent_jobs three_jobs 5 = Returned (Some plot)
      ∧ Z.of_nat (length (bin_centers plot)) = 5.
Proof.
  split.
  - destruct (resolution_is_never_checked idle_job (-30)) as (Hquiet & _).
    apply Hquiet. reflexivity.
  - destruct (resolution_is_never_checked three_jobs 5) as (_ & Hplot).
    apply (Hplot 1000000000 1025000000); [reflexivity | reflexivity | lia | lia].
Defined.

(** C8 as stated fails: with no job to count, a resolution of zero is
    accepted like any other and the call returns normally. *)
Lemma zero_resolution_is_not_rejected :
  plot_concurrent_jobs idle_job 0 = Returned None ∧ ¬ resolution_checked.
Proof.
  split; [reflexivity|].
  intros H. destruct (H idle_job 0) as [e He]; [lia | discriminate He].
Qed.

End Concurrency.

(** ** Extremes and order statistics *)

Section OrderStatistics.
Import Numpy.

Lemma foldr_min_spec (x : Z) (rest : list Z) :
  foldr Z.min x rest ∈ x :: rest
  ∧ Forall (λ y, foldr Z.min x rest ≤ y) (x :: rest).
Proof.
  induction rest as [|y rest [Hin Hall]]; simpl.
  - split; [left | repeat constructor; lia].
  - apply Forall_cons in Hall as [Hx Hrest]. split.
    + destruct (Z.min_spec y (foldr Z.min x rest)) as [[_ ->]|[_ ->]].
      * right. left.
      * apply elem_of_cons in Hin as [->|Hin]; [left | right; right; exact Hin].
    + constructor; [lia|]. constructor; [lia|].
      eapply Forall_impl; [exact Hrest|]. simpl. lia.
Qed.

Lemma foldr_max_spec (x : Z) (rest : list Z) :
  foldr Z.max x rest ∈ x :: rest
  ∧ Forall (λ y, y ≤ foldr Z.max x rest) (x :: rest).
Proof.
  induction rest as [|y rest [Hin Hall]]; simpl.
  - split; [left | repeat constructor; lia].
  - apply Forall_cons in Hall as [Hx Hrest]. split.
    + destruct (Z.max_spec y (foldr Z.max x rest)) as [[_ ->]|[_ ->]].
      * apply elem_of_cons in Hin as [->|Hin]; [left | right; right; exact Hin].
      * right. left.
    + constructor; [lia|]. constructor; [lia|].
      eapply Forall_impl; [exact Hrest|]. simpl. lia.
Qed.

Lemma minimum_spec (xs : list Z) (m : Z) :
  minimum xs = Some m ↔ m ∈ xs ∧ Forall (λ y, m ≤ y) xs.
Proof.
  destruct xs as [|x rest]; simpl.
  - split; [discriminate | intros [H _]; apply elem_of_nil in H; destruct H].
  - split.
    + intros [= <-]. apply foldr_min_spec.
    + intros [Hin Hall]. f_equal.
      destruct (foldr_min_spec x rest) as [Hin' Hall'].
      rewrite Forall_forall in Hall, Hall'.
      specialize (Hall _ Hin'). specialize (Hall' _ Hin). lia.
Qed.

Lemma maximum_spec (xs : list Z) (m : Z) :
  maximum xs = Some m ↔ m ∈ xs ∧ Forall (λ y, y ≤ m) xs.
Proof.
  destruct xs as [|x rest]; simpl.
  - split; [discriminate | intros [H _]; apply elem_of_nil in H; destruct H].
  - split.
    + intros [= <-]. apply foldr_max_spec.
    + intros [Hin Hall]. f_equal.
      destruct (foldr_max_spec x rest) as [Hin' Hall'].
      rewrite Forall_forall in Hall, Hall'.
      specialize (Hall _ Hin'). specialize (Hall' _ Hin). lia.
Qed.

Lemma sorted_Permutation (xs : list Z) : sorted xs ≡ₚ xs.
Proof. apply merge_sort_Permutation. Qed.

Lemma minimum_sorted (xs : list Z) : minimum (sorted xs) = minimum xs.
Proof.
  destruct (minimum xs) as [m|] eqn:Hm.
  - apply minimum_spec. apply minimum_spec in Hm.
    rewrite sorted_Permutation. exact Hm.
  - destruct xs; [reflexivity | discriminate].
Qed.

Lemma maximum_sorted (xs : list Z) : maximum (sorted xs) = maximum xs.
Proof.
  destruct (maximum xs) as [m|] eqn:Hm.
  - apply maximum_spec. apply maximum_spec in Hm.
    rewrite sorted_Permutation. exact Hm.
  - destruct xs; [reflexivity | discriminate].
Qed.

Lemma length_sorted (xs : list Z) : length (sorted xs) = length xs.
Proof. apply Permutation_length, sorted_Permutation. Qed.

(** An order statistic never exceeds a non-negative maximum; the default
    of an out-of-range rank is 0. *)
Lemma nth_sorted_le (xs : list Z) (top : Z) (i : nat) :
  maximum xs = Some top → 0 ≤ top → nth i (sorted xs) 0 ≤ top.
Proof.
  intros Hmax Htop. rewrite nth_lookup.
  destruct (sorted xs !! i) as [x|] eqn:Hx; simpl; [|exact Htop].
  apply list_elem_of_lookup_2 in Hx. rewrite sorted_Permutation in Hx.
  apply maximum_spec in Hmax as [_ Hall].
  rewrite Forall_forall in Hall. apply Hall, Hx.
Qed.

Lemma interpolation_le (a b top g : Q) :
  (a <= top → b <= top → 0 <= g → g <= 1 → a + g * (b - a) <= top)%Q.
Proof. intros Ha Hb Hg0 Hg1. nra. Qed.

(** A percentile lies at or below the largest sample. *)
Lemma percentile_le_maximum (xs : list Z) (q : Q) (top : Z) :
  maximum xs = Some top → 0 ≤ top →
  (percentile xs q <= inject_Z top)%Q.
Proof.
  intros Hmax Htop. unfold percentile.
  set (h := (inject_Z (Z.of_nat (length (sorted xs)) - 1) * (q / 100))%Q).
  assert (Hstep : ∀ a b : Z, a ≤ top → b ≤ top →
    (inject_Z a + (h - inject_Z (Qfloor h)) * inject_Z (b - a)
     <= inject_Z top)%Q).
  { intros a b Ha Hb.
    assert (inject_Z (b - a) == inject_Z b - inject_Z a)%Q as ->
      by (unfold Z.sub; rewrite inject_Z_plus, inject_Z_opp; reflexivity).
    apply interpolation_le.
    - rewrite <- Zle_Qle. exact Ha.
    - rewrite <- Zle_Qle. exact Hb.
    - pose proof (Qfloor_le h). lra.
    - pose proof (Qlt_floor h) as Hlt. rewrite inject_Z_plus in Hlt.
      change (inject_Z 1) with 1%Q in Hlt. lra. }
  apply Hstep; apply nth_sorted_le; assumption.
Qed.

End OrderStatistics.

(** ** The duration histograms (plot_duration_histograms.py) *)

Section Distribution.
Import Numpy PlotDurationHistograms.

(** A duration column after dropping the missing and the non-positive
    values. *)
Definition positive_sample (column : list (option Z)) : list Z :=
  List.filter (λ d, d >? 0) (omap id column).

(** The number of samples strictly above [bound]. *)
Fixpoint count_greater (bound : Q) (xs : list Z) : Z :=
  match xs with
  | [] => 0
  | x :: rest =>
      (if Qlt_le_dec bound (inject_Z x) then 1 else 0) + count_greater bound rest
  end.

Lemma Qgt_bool_lt (a b : Q) : Qgt_bool a b = true ↔ (b < a)%Q.
Proof.
  unfold Qgt_bool. destruct (Qle_bool a b) eqn:H; simpl.
  - apply Qle_bool_iff in H. split; [discriminate|].
    intros Hlt. exfalso. apply (Qlt_not_le _ _ Hlt), H.
  - split; [intros _ | reflexivity].
    apply Qnot_le_lt. intros Hle. apply Qle_bool_iff in Hle. congruence.
Qed.

Lemma Qgt_bool_le (a b : Q) : Qgt_bool a b = false ↔ (a <= b)%Q.
Proof.
  unfold Qgt_bool. destruct (Qle_bool a b) eqn:H; simpl.
  - apply Qle_bool_iff in H. tauto.
  - split; [discriminate|]. intros Hle. apply Qle_bool_iff in Hle. congruence.
Qed.

(** Python's [min] picks the smaller of its two arguments. *)
Lemma py_min_Qmin (a b : Q) : (py_min a b == Qmin b a)%Q.
Proof.
  unfold py_min. destruct (Qgt_bool a b) eqn:H.
  - apply Qgt_bool_lt in H. symmetry. apply Q.min_l. apply Qlt_le_weak, H.
  - apply Qgt_bool_le in H. symmetry. apply Q.min_r. exact H.
Qed.

Lemma py_min_le_r (a b : Q) : (py_min a b <= b)%Q.
Proof.
  unfold py_min. destruct (Qgt_bool a b) eqn:H.
  - apply Qle_refl.
  - apply Qgt_bool_le, H.
Qed.

Lemma count_greater_filter (bound : Q) (xs : list Z) :
  Z.of_nat (length (List.filter (λ d, Qgt_bool (inject_Z d) bound) xs))
  = count_greater bound xs.
Proof.
  induction xs as [|x xs IH]; [reflexivity|].
  cbn [List.filter count_greater].
  destruct (Qlt_le_dec bound (inject_Z x)) as [Hlt|Hle].
  - apply Qgt_bool_lt in Hlt. rewrite Hlt. cbn [length]. lia.
  - apply Qgt_bool_le in Hle. rewrite Hle. lia.
Qed.

Lemma positive_sample_positive (column : list (option Z)) (x : Z) :
  x ∈ positive_sample column → 0 < x.
Proof.
  unfold positive_sample. rewrite list_elem_of_In, filter_In.
  intros [_ H]. lia.
Qed.

(** C2: on a column that keeps at least one positive duration, trimming
    is switched on exactly when the mean exceeds five times the median;
    the trim bound is then the smaller of the 99th percentile and the last
    edge of the automatic binning of the whole positive sample, the
    excluded count is the number of samples strictly above the bound, and
    the bound is at most the largest sample.  Without trimming there is no
    bound and nothing is excluded. *)
Theorem trimming_rule (column : list (option Z)) :
  let sample := positive_sample column in
  sample ≠ [] →
  ∃ h top,
    phase_histogram column = Some h
    ∧ data_positive h = sample
    ∧ maximum sample = Some top
    ∧ (outlier_detected h = true ↔ (5 * median sample < mean sample)%Q)
    ∧ (outlier_detected h = true →
       ∃ bound,
         x_max h = Some bound
         ∧ (bound == Qmin (percentile sample 99)
                          (histogram_auto_last_edge sample))%Q
         ∧ n_excluded h = count_greater bound sample
         ∧ (bound <= inject_Z top)%Q)
    ∧ (outlier_detected h = false → x_max h = None ∧ n_excluded h = 0).
Proof.
  intros sample Hne.
  destruct (maximum sample) as [top|] eqn:Hmax;
    [|destruct sample; [congruence | discriminate]].
  assert (0 ≤ top) as Htop.
  { apply maximum_spec in Hmax as [Hin _].
    apply positive_sample_positive in Hin. lia. }
  unfold phase_histogram. fold (positive_sample column). fold sample.
  destruct (Nat.eqb_spec (length sample) 0) as [Hlen|_];
    [destruct sample; [congruence | discriminate]|].
  destruct (Qgt_bool (mean sample) (5 * median sample)) eqn:Hout.
  - eexists _, top. split; [reflexivity|]. cbn [data_positive outlier_detected x_max n_excluded].
    split; [reflexivity|]. split; [reflexivity|].
    split; [|split].
    + apply Qgt_bool_lt in Hout. tauto.
    + intros _. eexists. split; [reflexivity|]. split; [|split].
      * apply py_min_Qmin.
      * apply count_greater_filter.
      * eapply Qle_trans; [apply py_min_le_r|].
        apply percentile_le_maximum; assumption.
    + discriminate.
  - eexists _, top. split; [reflexivity|]. cbn [data_positive outlier_detected x_max n_excluded].
    split; [reflexivity|]. split; [reflexivity|].
    split; [|split].
    + split; [discriminate|]. intros Hlt. apply Qgt_bool_lt in Hlt. congruence.
    + discriminate.
    + intros _. split; reflexivity.
Qed.

(** The spec's sample [{10, 10, 11, 9, 10, 500}], in a column with a
    missing and a negative entry that are dropped first. *)
Definition heavy_tail_sample : list Z := [10; 10; 11; 9; 10; 500].

Definition heavy_tail_column : list (option Z) :=
  [Some 10; Some 10; None; Some 11; Some 9; Some (-3); Some 10; Some 500].

(** On that column the mean 550/6 exceeds five times the median 10, the
    bound is the 99th percentile 475.55, and the one excluded sample is
    500. *)
Lemma trimming_rule_witness :
  ∃ h top,
    phase_histogram heavy_tail_column = Some h
    ∧ data_positive h = heavy_tail_sample
    ∧ maximum heavy_tail_sample = Some top
    ∧ (outlier_detected h = true
       ↔ (5 * median heavy_tail_sample < mean heavy_tail_sample)%Q)
    ∧ (outlier_detected h = true →
       ∃ bound,
         x_max h = Some bound
         ∧ (bound == Qmin (percentile heavy_tail_sample 99)
                          (histogram_auto_last_edge heavy_tail_sample))%Q
         ∧ n_excluded h = count_greater bound heavy_tail_sample
         ∧ (bound <= inject_Z top)%Q)
    ∧ (outlier_detected h = false → x_max h = None ∧ n_excluded h = 0).
Proof.
  apply (trimming_rule heavy_tail_column). discriminate.
Defined.

Example heavy_tail_is_trimmed :
  ∃ h, phase_histogram heavy_tail_column = Some h
       ∧ outlier_detected h = true
       ∧ x_max h = Some (47555 # 100)%Q
       ∧ data_to_plot h = [10; 10; 11; 9; 10]
       ∧ n_excluded h = 1.
Proof. eexists. split; [reflexivity|]. repeat split. Qed.

End Distribution.

(** ** The completion curve (plot_completion_curve.py) *)

Section CompletionCurve.
Import CondorToParquet Numpy PlotCompletionCurve.

(** The completion instants that are present. *)
Definition completions (df : list JobRecord) : list datetime :=
  omap completion_time df.

(** The reading of C7 for one table with at least one completion: the
    call returns; the rate is the count divided by the elapsed seconds
    when these are not zero, and undefined when they are. *)
Definition rate_as_specified (df : list JobRecord) : Prop :=
  ∀ first last : datetime,
    minimum (completions df) = Some first →
    maximum (completions df) = Some last →
    ∃ plot, plot_completion_curve df = Returned plot
      ∧ (last - first = 0 → jobs_per_minute plot = None)
      ∧ (last - first ≠ 0 →
         ∃ rate, jobs_per_minute plot = Some rate
           ∧ (rate == inject_Z (Z.of_nat (length (completions df)))
                      / total_seconds (last - first))%Q).

(** A table with a single completed job. *)
Definition single_job : list JobRecord :=
  parse_condor_history [Ads.ran 1000 1010].

(** Two jobs completing two minutes apart. *)
Definition two_jobs : list JobRecord :=
  parse_condor_history [Ads.ran 1000 1060; Ads.ran 1000 1180].

Lemma minutes_nonzero (td : timedelta) :
  td ≠ 0 → Qeq_bool (total_seconds td / 60) 0 = false.
Proof.
  intros Htd. destruct (Qeq_bool (total_seconds td / 60) 0) eqn:H; [|reflexivity].
  apply Qeq_bool_iff in H. unfold Qeq, total_seconds in H. simpl in H. lia.
Qed.

(** C7, as the code has it: when the first and the last completion
    differ, the rate is the number of completions divided by the elapsed
    minutes, that is, jobs per minute. *)
Theorem completion_rate_is_per_minute (df : list JobRecord)
    (first last : datetime) :
  minimum (completions df) = Some first →
  maximum (completions df) = Some last →
  first ≠ last →
  ∃ plot, plot_completion_curve df = Returned plot
    ∧ first_completion plot = Some first
    ∧ last_completion plot = Some last
    ∧ elapsed_seconds plot = Some (total_seconds (last - first))
    ∧ jobs_per_minute plot
      = Some (inject_Z (Z.of_nat (length (completions df)))
              / (total_seconds (last - first) / 60))%Q.
Proof.
  intros Hmin Hmax Hne. unfold plot_completion_curve.
  fold (completions df).
  rewrite minimum_sorted, maximum_sorted, Hmin, Hmax, length_sorted.
  rewrite minutes_nonzero by lia.
  eexists. split; [reflexivity|]. repeat split.
Qed.

(** Two completions 120 seconds apart: one job per minute. *)
Lemma completion_rate_is_per_minute_witness :
  ∃ plot, plot_completion_curve two_jobs = Returned plot
    ∧ first_completion plot = Some (fromtimestamp 1060)
    ∧ last_completion plot = Some (fromtimestamp 1180)
    ∧ elapsed_seconds plot
      = Some (total_seconds (fromtimestamp 1180 - fromtimestamp 1060))
    ∧ jobs_per_minute plot
      = Some (inject_Z (Z.of_nat (length (completions two_jobs)))
              / (total_seconds (fromtimestamp 1180 - fromtimestamp 1060) / 60))%Q.
Proof.
  apply (completion_rate_is_per_minute two_jobs); [reflexivity | reflexivity |].
  discriminate.
Defined.

(** C7 as stated fails: with a single completion the elapsed time is
    zero, and the script divides by it and stops instead of reporting an
    undefined rate. *)
Lemma single_completion_divides_by_zero :
  plot_completion_curve single_job = Raised ZeroDivisionError
  ∧ ¬ rate_as_specified single_job.
Proof.
  split; [reflexivity|].
  intros H.
  destruct (H (fromtimestamp 1010) (fromtimestamp 1010) eq_refl eq_refl)
    as (plot & Hplot & _).
  discriminate Hplot.
Qed.

(** Nor is the rate a count per second where it is defined: two jobs in
    120 seconds are reported as 1 (per minute), not 1/60. *)
Lemma rate_is_not_per_second :
  ∃ plot rate, plot_completion_curve two_jobs = Returned plot
    ∧ jobs_per_minute plot = Some rate
    ∧ (rate == 1)%Q
    ∧ ¬ (rate == 2 / total_seconds (fromtimestamp 1180 - fromtimestamp 1060))%Q.
Proof.
  eexists _, _. split; [reflexivity|]. split; [reflexivity|].
  split; [reflexivity|]. intros H. discriminate H.
Qed.

End CompletionCurve.

(** * Further properties of the scripts *)

(** ** gantt_chart.py: the shape of a job's phase records *)

Section GanttRecords.
Import GanttChart.

(** The records of one job, from the five timestamps that passed their
    truthiness tests. *)
Definition phases_of (pid cid : pyval) (f : bool)
    (input_start input_end output_start output_end completion : option Z)
    : list PhaseRecord :=
  let rec := λ p x y,
    {| job_id := pid; cluster_id := cid; phase := p;
       start_time := fromtimestamp x; end_time := fromtimestamp y;
       duration := y - x; failed := f |} in
  match input_start, input_end with
  | Some x, Some y => [rec InputTransfer x y]
  | _, _ => []
  end
  ++ match input_end, output_start with
     | Some x, Some y => [rec JobExecution x y]
     | _, _ => []
     end
  ++ match output_start, output_end with
     | Some x, Some y => [rec OutputTransfer x y]
     | Some x, None =>
         match completion with
         | Some y => if f then [rec OutputTransfer x y] else []
         | None => []
         end
     | None, _ => []
     end.

Lemma truthy_as_number (v : pyval) :
  truthy v = match number v with Some _ => true | None => false end.
Proof.
  destruct (number v) as [z|] eqn:H.
  - exact (truthy_of_number v z H).
  - exact (falsy_of_number v H).
Qed.

Lemma parse_job_phases (job : gmap string pyval) :
  parse_job job =
  phases_of (get job "ProcId") (get job "ClusterId")
    (CondorToParquet.failed (CondorToParquet.parse_job job))
    (number (get job "JobCurrentStartTransferInputDate"))
    (number (get job "JobCurrentFinishTransferInputDate"))
    (number (get job "JobCurrentStartTransferOutputDate"))
    (number (get job "JobCurrentFinishTransferOutputDate"))
    (number (get job "CompletionDate")).
Proof.
  unfold parse_job, phases_of, phase_record. rewrite !truthy_as_number.
  cbn [CondorToParquet.failed CondorToParquet.parse_job].
  destruct (number (get job "JobCurrentStartTransferInputDate")),
           (number (get job "JobCurrentFinishTransferInputDate")),
           (number (get job "JobCurrentStartTransferOutputDate")),
           (number (get job "JobCurrentFinishTransferOutputDate")),
           (number (get job "CompletionDate"));
    destruct (ne (get_default job "JobStatus" (PInt 0)) (PInt 4)
              || ne (get_default job "ExitCode" (PInt 0)) (PInt 0));
    reflexivity.
Qed.

(** Every record of a job carries the ProcId and the ClusterId of its ad. *)
Lemma phase_record_ids (job : gmap string pyval) (p : PhaseRecord) :
  p ∈ parse_job job →
  job_id p = get job "ProcId" ∧ cluster_id p = get job "ClusterId".
Proof.
  rewrite parse_job_phases. unfold phases_of.
  destruct (number (get job "JobCurrentStartTransferInputDate")),
           (number (get job "JobCurrentFinishTransferInputDate")),
           (number (get job "JobCurrentStartTransferOutputDate")),
           (number (get job "JobCurrentFinishTransferOutputDate")),
           (number (get job "CompletionDate"));
    destruct (CondorToParquet.failed (CondorToParquet.parse_job job));
    cbn [app]; intros Hp;
    repeat (apply elem_of_cons in Hp as [->|Hp]);
    try (apply elem_of_nil in Hp; destruct Hp);
    split; reflexivity.
Qed.

(** X1: a job contributes at most three phase records, and they come in the
    order Input Transfer, Job Execution, Output Transfer, each phase at
    most once. *)
Theorem gantt_phases_in_order (job : gmap string pyval) :
  sublist (phase <$> parse_job job) [InputTransfer; JobExecution; OutputTransfer]
  ∧ (length (parse_job job) ≤ 3)%nat.
Proof.
  assert (H : sublist (phase <$> parse_job job)
                [InputTransfer; JobExecution; OutputTransfer]).
  { rewrite parse_job_phases. unfold phases_of.
    destruct (number (get job "JobCurrentStartTransferInputDate")),
             (number (get job "JobCurrentFinishTransferInputDate")),
             (number (get job "JobCurrentStartTransferOutputDate")),
             (number (get job "JobCurrentFinishTransferOutputDate")),
             (number (get job "CompletionDate"));
      destruct (CondorToParquet.failed (CondorToParquet.parse_job job));
      cbn [fmap list_fmap app phase]; repeat constructor. }
  split; [exact H|].
  apply sublist_length in H. rewrite length_fmap in H. exact H.
Qed.

(** The field of the ad a phase starts at, and the fields it can end at. *)
Definition start_field (p : phase_name) : string :=
  match p with
  | InputTransfer => "JobCurrentStartTransferInputDate"
  | JobExecution => "JobCurrentFinishTransferInputDate"
  | OutputTransfer => "JobCurrentStartTransferOutputDate"
  end.

Definition end_fields (p : phase_name) : list string :=
  match p with
  | InputTransfer => ["JobCurrentFinishTransferInputDate"]
  | JobExecution => ["JobCurrentStartTransferOutputDate"]
  | OutputTransfer => ["JobCurrentFinishTransferOutputDate"; "CompletionDate"]
  end.

(** X2: every phase record carries the ProcId and ClusterId of its ad and
    is built from two non-zero timestamps of the ad, the one of the field
    its phase starts at and the one of a field its phase can end at: its
    start and end are the conversions of these two timestamps, and its
    duration is their difference, the end timestamp minus the start
    timestamp.  The phases of one job are contiguous: Job Execution
    starts where Input Transfer ends, and Output Transfer starts where
    Job Execution ends. *)
Theorem gantt_phases_are_contiguous (job : gmap string pyval) :
  (∀ p, p ∈ parse_job job →
     job_id p = get job "ProcId"
     ∧ cluster_id p = get job "ClusterId"
     ∧ ∃ s e field,
         job !! start_field (phase p) = Some (PInt s)
         ∧ field ∈ end_fields (phase p) ∧ job !! field = Some (PInt e)
         ∧ s ≠ 0 ∧ e ≠ 0
         ∧ start_time p = fromtimestamp s ∧ end_time p = fromtimestamp e
         ∧ duration p = e - s)
  ∧ (∀ p q, p ∈ parse_job job → q ∈ parse_job job →
       (phase p = InputTransfer ∧ phase q = JobExecution
        ∨ phase p = JobExecution ∧ phase q = OutputTransfer) →
       end_time p = start_time q).
Proof.
  rewrite parse_job_phases. unfold phases_of.
  destruct (number (get job "JobCurrentStartTransferInputDate")) as [a|] eqn:Ha,
           (number (get job "JobCurrentFinishTransferInputDate")) as [b|] eqn:Hb,
           (number (get job "JobCurrentStartTransferOutputDate")) as [c|] eqn:Hc,
           (number (get job "JobCurrentFinishTransferOutputDate")) as [d|] eqn:Hd,
           (number (get job "CompletionDate")) as [e|] eqn:He;
    destruct (CondorToParquet.failed (CondorToParquet.parse_job job));
    cbn [app];
    repeat match goal with
           | H : number (get job ?f) = Some ?z |- _ =>
               pose proof (proj2 (proj1 (number_Some _ _) H));
               apply get_number in H
           | H : number _ = None |- _ => clear H
           end;
    (split;
     [ intros p Hp; repeat (apply elem_of_cons in Hp as [->|Hp]);
       try (apply elem_of_nil in Hp; destruct Hp);
       (split; [reflexivity|]); (split; [reflexivity|]);
       cbn [phase start_time end_time duration start_field end_fields];
       first
         [ eexists _, _, _; split; [eassumption|];
           split; [apply list_elem_of_here|];
           split; [eassumption|]; repeat split; assumption
         | eexists _, _, _; split; [eassumption|];
           split; [apply list_elem_of_further, list_elem_of_here|];
           split; [eassumption|]; repeat split; assumption ]
     | intros p q Hp Hq Hpq;
       repeat (apply elem_of_cons in Hp as [->|Hp]);
       try (apply elem_of_nil in Hp; destruct Hp);
       repeat (apply elem_of_cons in Hq as [->|Hq]);
       try (apply elem_of_nil in Hq; destruct Hq);
       cbn in Hpq |- *;
       first [ reflexivity
             | exfalso; destruct Hpq as [[? ?]|[? ?]]; discriminate ] ]).
Qed.

(** X3: the completion date only ever closes the Output Transfer of a
    failed job without an output-transfer end.  When the end of the output
    transfer is present it is the end of the record, failed or not; when
    it is absent and the job is not failed there is no Output Transfer
    record at all. *)
Theorem completion_closes_only_failed_jobs (job : gmap string pyval) :
  let r := CondorToParquet.parse_job job in
  (∀ e p, CondorToParquet.output_end_time r = Some e →
          p ∈ parse_job job → phase p = OutputTransfer → end_time p = e)
  ∧ (CondorToParquet.output_end_time r = None →
     CondorToParquet.failed r = false →
     ∀ p, p ∈ parse_job job → phase p ≠ OutputTransfer).
Proof.
  cbv zeta. rewrite parse_job_phases.
  set (f := CondorToParquet.failed (CondorToParquet.parse_job job)).
  cbn [CondorToParquet.output_end_time CondorToParquet.parse_job].
  rewrite to_datetime_number. unfold phases_of.
  destruct (number (get job "JobCurrentStartTransferInputDate")) as [a|],
           (number (get job "JobCurrentFinishTransferInputDate")) as [b|],
           (number (get job "JobCurrentStartTransferOutputDate")) as [c|],
           (number (get job "JobCurrentFinishTransferOutputDate")) as [d|],
           (number (get job "CompletionDate")) as [e|];
    destruct f;
    cbn [app fmap option_fmap option_map];
    (split;
     [ intros e' p He' Hp Hph; try discriminate He';
       injection He' as <-;
       repeat (apply elem_of_cons in Hp as [->|Hp]);
       try (apply elem_of_nil in Hp; destruct Hp);
       first [ reflexivity | discriminate Hph ]
     | intros Hnone Hok p Hp; try discriminate Hnone; try discriminate Hok;
       repeat (apply elem_of_cons in Hp as [->|Hp]);
       try (apply elem_of_nil in Hp; destruct Hp);
       cbn; discriminate ]).
Qed.

End GanttRecords.

(** ** gantt_chart.py: the printed summary *)

Section GanttSummary.
Import GanttChart GanttStatistics.

Lemma nunique_zero (col : list pyval) :
  nunique col = 0%nat ↔ ∀ v, v ∈ col → v = PNone.
Proof.
  unfold nunique. split.
  - intros Hlen v Hv. destruct v as [|z]; [reflexivity|]. exfalso.
    assert (z ∈ remove_dups (omap not_null col)) as Hz.
    { apply elem_of_remove_dups, list_elem_of_omap. exists (PInt z). auto. }
    destruct (remove_dups (omap not_null col)); [|discriminate].
    apply elem_of_nil in Hz. exact Hz.
  - intros Hall.
    assert (omap not_null col = []) as ->; [|reflexivity].
    induction col as [|v col IH]; [reflexivity|].
    cbn [omap list_omap]. rewrite (Hall v) by left. cbn.
    apply IH. intros w Hw. apply Hall. right. exact Hw.
Qed.

Lemma nunique_mono (xs ys : list pyval) :
  (∀ v, v ∈ xs → v ∈ ys) → (nunique xs ≤ nunique ys)%nat.
Proof.
  intros Hsub. unfold nunique. apply submseteq_length, NoDup_submseteq.
  - apply NoDup_remove_dups.
  - intros z. rewrite !elem_of_remove_dups, !list_elem_of_omap.
    intros (v & Hv & Hz). exists v. auto.
Qed.

Lemma nunique_le_length (xs : list pyval) : (nunique xs ≤ length xs)%nat.
Proof.
  unfold nunique.
  etransitivity; [apply submseteq_length, NoDup_submseteq|].
  - apply NoDup_remove_dups.
  - intros z Hz. rewrite elem_of_remove_dups in Hz. exact Hz.
  - induction xs as [|[|z] xs IH]; cbn [omap list_omap not_null length]; lia.
Qed.

Lemma job_id_of_phase (data : list (gmap string pyval)) (v : pyval) :
  v ∈ job_id <$> parse_condor_history data →
  v ∈ (λ job, get job "ProcId") <$> data.
Proof.
  unfold parse_condor_history.
  rewrite !list_elem_of_fmap. intros (p & -> & Hp).
  apply list_elem_of_bind in Hp as (job & Hp & Hjob).
  exists job. split; [|exact Hjob].
  apply (phase_record_ids job). exact Hp.
Qed.

(** X4: in the summary of a history, the number of failed jobs is at most
    the total number of jobs, which is at least one and at most the number
    of ads in the history: a job counts through the ProcId of its phase
    records, so an ad without any phase is not counted, and ads sharing a
    ProcId count once. *)
Theorem gantt_summary_counts (data : list (gmap string pyval)) (st : Statistics) :
  print_statistics (parse_condor_history data) = Returned st →
  (failed_jobs st ≤ total_jobs st)%nat
  ∧ (1 ≤ total_jobs st)%nat
  ∧ (total_jobs st ≤ length data)%nat.
Proof.
  unfold print_statistics.
  destruct (Nat.eqb_spec (nunique (job_id <$> parse_condor_history data)) 0)
    as [|Hpos]; [discriminate|].
  intros [= <-]. cbn [failed_jobs total_jobs]. split; [|split].
  - apply nunique_mono. intros v. rewrite !list_elem_of_fmap.
    intros (p & -> & Hp). exists p. split; [reflexivity|].
    apply list_elem_of_In in Hp. apply filter_In in Hp as [Hp _].
    apply list_elem_of_In. exact Hp.
  - lia.
  - etransitivity; [apply nunique_mono, job_id_of_phase|].
    etransitivity; [apply nunique_le_length|]. rewrite length_fmap. reflexivity.
Qed.

(** Two ads with the same ProcId, one of them failed, and one ad that has
    no phase at all. *)
Definition shared_proc_id : list (gmap string pyval) :=
  [ <["ProcId" := PInt 7]> Ads.removed_during_output;
    <["ProcId" := PInt 7]> Ads.skewed_input;
    <["ProcId" := PInt 8]> ∅ ].

Definition shared_proc_id_summary : Statistics :=
  {| total_jobs := 1; failed_jobs := 1;
     success_rate := ((0 # 1) * 100)%Q;
     average_durations := [ (InputTransfer, (-50 # 1)%Q); (OutputTransfer, (50 # 1)%Q) ] |}.

Lemma gantt_summary_counts_witness :
  (failed_jobs shared_proc_id_summary ≤ total_jobs shared_proc_id_summary)%nat
  ∧ (1 ≤ total_jobs shared_proc_id_summary)%nat
  ∧ (total_jobs shared_proc_id_summary ≤ length shared_proc_id)%nat.
Proof.
  apply (gantt_summary_counts shared_proc_id shared_proc_id_summary).
  vm_compute. reflexivity.
Defined.

(** X5: on a frame with at least one record, the summary stops with a
    division by zero exactly when no record carries a ProcId, for instance
    when the ads of the history have none: the number of distinct jobs is
    then zero and the success rate divides by it. *)
Theorem gantt_summary_needs_a_proc_id (df : list PhaseRecord) :
  df ≠ [] →
  print_statistics df = Raised ZeroDivisionError
  ↔ ∀ p, p ∈ df → job_id p = PNone.
Proof.
  intros _. unfold print_statistics.
  destruct (Nat.eqb_spec (nunique (job_id <$> df)) 0) as [Hz|Hz].
  - split; [intros _|reflexivity].
    intros p Hp. apply (proj1 (nunique_zero _) Hz).
    apply list_elem_of_fmap. eauto.
  - split; [discriminate|]. intros Hall. exfalso. apply Hz.
    apply nunique_zero. intros v Hv.
    apply list_elem_of_fmap in Hv as (p & -> & Hp). auto.
Qed.

Lemma gantt_summary_needs_a_proc_id_witness :
  print_statistics (parse_condor_history [Ads.removed_during_output])
    = Raised ZeroDivisionError
  ↔ ∀ p, p ∈ parse_condor_history [Ads.removed_during_output] →
         job_id p = PNone.
Proof.
  apply (gantt_summary_needs_a_proc_id
           (parse_condor_history [Ads.removed_during_output])).
  vm_compute. discriminate.
Defined.

End GanttSummary.

(** ** plot_gantt_phases.py against gantt_chart.py *)

Section GanttAgreement.
Import GanttChart.

Lemma positive_seconds (a b : datetime) :
  negb (Qle_bool (total_seconds (b - a)) 0) = (a <? b).
Proof.
  destruct (Qle_bool (total_seconds (b - a)) 0) eqn:H.
  - apply Qle_bool_iff in H. unfold Qle, total_seconds in H.
    simpl in H. symmetry. apply Z.ltb_ge. lia.
  - apply total_seconds_positive in H. symmetry. apply Z.ltb_lt. lia.
Qed.

Lemma get_delete_ne (job : gmap string pyval) (k k' : string) :
  k ≠ k' → get (delete k job) k' = get job k'.
Proof. intros H. unfold get. rewrite lookup_delete_ne by exact H. reflexivity. Qed.

Lemma get_default_delete_ne (job : gmap string pyval) (k k' : string) (d : pyval) :
  k ≠ k' → get_default (delete k job) k' d = get_default job k' d.
Proof.
  intros H. unfold get_default. rewrite lookup_delete_ne by exact H. reflexivity.
Qed.

Lemma get_delete_eq (job : gmap string pyval) (k : string) :
  get (delete k job) k = PNone.
Proof. unfold get. rewrite lookup_delete_eq. reflexivity. Qed.

(** X6: the bars plot_gantt_phases.py draws for the row that
    condor_to_parquet.py builds from an ad are, phase by phase and with
    the same start and end, the records gantt_chart.py builds from that
    ad, restricted to those whose end instant is later than their start
    instant and without ever using the completion date to close an
    output transfer.  The test is on the two instants, as the plot has
    it, not on the duration column of the record, which is a difference
    of timestamps. *)
Theorem bars_are_the_positive_phase_records (idx : nat) (job : gmap string pyval) :
  (λ b, (PlotGanttPhases.bar_phase b, PlotGanttPhases.bar_start b,
         PlotGanttPhases.bar_end b))
    <$> PlotGanttPhases.row_bars idx (CondorToParquet.parse_job job)
  = (λ p, (phase p, start_time p, end_time p))
    <$> List.filter (λ p, start_time p <? end_time p)
          (parse_job (delete "CompletionDate" job)).
Proof.
  rewrite parse_job_phases.
  rewrite !get_delete_ne by discriminate. rewrite get_delete_eq.
  cbn [CondorToParquet.failed CondorToParquet.parse_job].
  rewrite !get_default_delete_ne by discriminate.
  unfold PlotGanttPhases.row_bars, PlotGanttPhases.phase_bar, phases_of.
  cbn [CondorToParquet.parse_job
       CondorToParquet.input_start_time CondorToParquet.input_end_time
       CondorToParquet.output_start_time CondorToParquet.output_end_time].
  rewrite !to_datetime_number.
  change (number PNone) with (@None Z).
  destruct (number (get job "JobCurrentStartTransferInputDate")) as [a|],
           (number (get job "JobCurrentFinishTransferInputDate")) as [b|],
           (number (get job "JobCurrentStartTransferOutputDate")) as [c|],
           (number (get job "JobCurrentFinishTransferOutputDate")) as [d|];
    cbn [fmap option_fmap option_map app List.filter start_time end_time];
    rewrite ?positive_seconds;
    repeat match goal with
           | |- context [fromtimestamp ?x <? fromtimestamp ?y] =>
               destruct (fromtimestamp x <? fromtimestamp y)
           end;
    reflexivity.
Qed.

End GanttAgreement.

(** ** plot_concurrent_jobs.py: what the plot depends on and how far it
    reaches *)

Section ConcurrencyMore.
Import CondorToParquet Numpy PlotConcurrentJobs.

(** The estimate as a function of the occupancy intervals alone. *)
Definition estimate (ivs : list (datetime * datetime)) (res : Z)
    : outcome (option ConcurrencyPlot) :=
  if (length ivs =? 0)%nat then Returned None
  else
    match minimum ivs.*1, maximum ivs.*2 with
    | Some start_time, Some end_time =>
        if res =? 0 then Raised ZeroDivisionError
        else
          match date_range start_time
                  (Qceiling (total_seconds (end_time - start_time) / inject_Z res)%Q + 1)
                  res with
          | Raised e => Raised e
          | Returned time_bins =>
              let centers : list datetime :=
                bin_center_of time_bins <$> seq 0 (length time_bins - 1) in
              let counts : list Z := half_open_count ivs <$> centers in
              match maximum counts with
              | None => Raised ValueError
              | Some top =>
                  Returned (Some
                    {| bin_centers := centers;
                       bin_centers_hours :=
                         (λ c : datetime, (total_seconds (c - start_time) / 3600)%Q)
                           <$> centers;
                       concurrent_counts := counts;
                       max_concurrent := top;
                       mean_concurrent := mean counts;
                       median_concurrent := median counts |})
              end
          end
    | _, _ => Returned None
    end.

Lemma plot_is_estimate (df : list JobRecord) (res : Z) :
  plot_concurrent_jobs df res = estimate (intervals df) res.
Proof.
  unfold plot_concurrent_jobs, estimate.
  rewrite valid_starts, valid_completions, valid_length.
  destruct (length (intervals df) =? 0)%nat; [reflexivity|].
  destruct (minimum _) as [start_time|]; [|reflexivity].
  destruct (maximum _) as [end_time|]; [|reflexivity].
  destruct (res =? 0); [reflexivity|].
  destruct (date_range _ _ _) as [time_bins|]; [|reflexivity].
  cbv zeta.
  assert ((λ c : datetime, Z.of_nat (length (running (List.filter has_timing df) c)))
            <$> (bin_center_of time_bins <$> seq 0 (length time_bins - 1))
          = half_open_count (intervals df)
            <$> (bin_center_of time_bins <$> seq 0 (length time_bins - 1))) as ->
    by (apply list_fmap_ext; intros i c _; apply running_count).
  reflexivity.
Qed.

Lemma half_open_count_Permutation (ivs ivs' : list (datetime * datetime))
    (c : datetime) :
  ivs ≡ₚ ivs' → half_open_count ivs c = half_open_count ivs' c.
Proof.
  induction 1 as [|[s e] l l' _ IH|[s e] [s' e'] l|l l' l'' _ IH1 _ IH2];
    cbn [half_open_count]; [reflexivity | rewrite IH; reflexivity | lia | congruence].
Qed.

Lemma minimum_Permutation (xs ys : list Z) : xs ≡ₚ ys → minimum xs = minimum ys.
Proof.
  intros Hp. destruct (minimum ys) as [m|] eqn:Hm.
  - apply minimum_spec. apply minimum_spec in Hm. rewrite Hp. exact Hm.
  - destruct ys; [|discriminate]. apply Permutation_nil_r in Hp. subst. reflexivity.
Qed.

Lemma maximum_Permutation (xs ys : list Z) : xs ≡ₚ ys → maximum xs = maximum ys.
Proof.
  intros Hp. destruct (maximum ys) as [m|] eqn:Hm.
  - apply maximum_spec. apply maximum_spec in Hm. rewrite Hp. exact Hm.
  - destruct ys; [|discriminate]. apply Permutation_nil_r in Hp. subst. reflexivity.
Qed.

(** X7: the outcome of the estimate depends only on the occupancy
    intervals of the jobs that have both instants, as a multiset: the
    order of the rows does not matter, and rows lacking a start or a
    completion instant have no influence at all. *)
Theorem concurrency_depends_on_intervals_only (df df' : list JobRecord) (res : Z) :
  intervals df ≡ₚ intervals df' →
  plot_concurrent_jobs df res = plot_concurrent_jobs df' res.
Proof.
  intros Hp. rewrite !plot_is_estimate. unfold estimate.
  rewrite (Permutation_length Hp).
  rewrite (minimum_Permutation _ _ (fmap_Permutation fst _ _ Hp)).
  rewrite (maximum_Permutation _ _ (fmap_Permutation snd _ _ Hp)).
  destruct (length (intervals df') =? 0)%nat; [reflexivity|].
  destruct (minimum _) as [start_time|]; [|reflexivity].
  destruct (maximum _) as [end_time|]; [|reflexivity].
  destruct (res =? 0); [reflexivity|].
  destruct (date_range _ _ _) as [time_bins|]; [|reflexivity].
  cbv zeta.
  assert (half_open_count (intervals df)
            <$> (bin_center_of time_bins <$> seq 0 (length time_bins - 1))
          = half_open_count (intervals df')
            <$> (bin_center_of time_bins <$> seq 0 (length time_bins - 1))) as ->
    by (apply list_fmap_ext; intros i c _; apply half_open_count_Permutation, Hp).
  reflexivity.
Qed.

(** The three jobs in reverse order, among rows without timing. *)
Definition three_jobs_shuffled : list JobRecord :=
  idle_job ++ rev three_jobs ++ parse_condor_history [Ads.started_at_epoch].

Lemma concurrency_depends_on_intervals_only_witness :
  plot_concurrent_jobs three_jobs 5 = plot_concurrent_jobs three_jobs_shuffled 5.
Proof.
  apply (concurrency_depends_on_intervals_only three_jobs three_jobs_shuffled 5).
  change (intervals three_jobs ≡ₚ rev (intervals three_jobs)).
  apply Permutation_rev.
Defined.

Lemma half_open_count_bounds (ivs : list (datetime * datetime)) (c : datetime) :
  0 ≤ half_open_count ivs c ≤ Z.of_nat (length ivs).
Proof.
  induction ivs as [|[s e] ivs IH]; cbn [half_open_count length]; [lia|].
  destruct (decide (s ≤ c ∧ c < e)); lia.
Qed.

(** X8: in every plot, each count lies between zero and the number of jobs
    that have both instants, and the reported maximum is one of the counts
    and bounds them all. *)
Theorem counts_are_bounded (df : list JobRecord) (res : Z) (plot : ConcurrencyPlot) :
  plot_concurrent_jobs df res = Returned (Some plot) →
  Forall (λ n, 0 ≤ n ≤ Z.of_nat (length (intervals df))) (concurrent_counts plot)
  ∧ max_concurrent plot ∈ concurrent_counts plot
  ∧ Forall (λ n, n ≤ max_concurrent plot) (concurrent_counts plot).
Proof.
  rewrite plot_is_estimate. unfold estimate.
  destruct (length (intervals df) =? 0)%nat; [discriminate|].
  destruct (minimum _) as [start_time|]; [|discriminate].
  destruct (maximum _) as [end_time|]; [|discriminate].
  destruct (res =? 0); [discriminate|].
  destruct (date_range _ _ _) as [time_bins|]; [|discriminate].
  cbv zeta. destruct (maximum (half_open_count _ <$> _)) as [top|] eqn:Htop;
    [|discriminate].
  intros [= <-]. cbn [concurrent_counts max_concurrent].
  apply maximum_spec in Htop as [Hin Hall]. split; [|split; assumption].
  apply Forall_fmap, Forall_forall. intros c _. apply half_open_count_bounds.
Qed.

Lemma counts_are_bounded_witness :
  Forall (λ n, 0 ≤ n ≤ Z.of_nat (length (intervals three_jobs)))
    (concurrent_counts three_jobs_plot)
  ∧ max_concurrent three_jobs_plot ∈ concurrent_counts three_jobs_plot
  ∧ Forall (λ n, n ≤ max_concurrent three_jobs_plot)
      (concurrent_counts three_jobs_plot).
Proof.
  apply (counts_are_bounded three_jobs 5 three_jobs_plot). reflexivity.
Defined.

Lemma ceiling_brackets (td res : Z) :
  0 < res →
  let n := Qceiling (total_seconds td / inject_Z res)%Q in
  (n - 1) * (res * 1000000) < td ≤ n * (res * 1000000).
Proof.
  intros Hres n.
  pose proof (Qle_ceiling (total_seconds td / inject_Z res)%Q) as Hle.
  pose proof (Qceiling_lt (total_seconds td / inject_Z res)%Q) as Hlt.
  fold n in Hle, Hlt.
  destruct res as [|p|p]; try lia.
  unfold Qle, Qlt, total_seconds, Qdiv, Qmult, Qinv, inject_Z in Hle, Hlt.
  cbn [Qnum Qden] in Hle, Hlt.
  rewrite Pos2Z.inj_mul in Hle, Hlt. lia.
Qed.

(** X9: for a positive resolution and a time range of positive length,
    the bins reach the latest completion and none starts at or after it:
    bin [i] starts at [T0 + i * resolution], every bin starts before
    [T1], and the last bin ends at or after [T1]. *)
Theorem bins_cover_the_time_range (df : list JobRecord) (res T0 T1 : Z) :
  minimum (intervals df).*1 = Some T0 →
  maximum (intervals df).*2 = Some T1 →
  T0 < T1 → 0 < res →
  ∃ plot, plot_concurrent_jobs df res = Returned (Some plot)
    ∧ (∀ (i : nat) (c : datetime), bin_centers plot !! i = Some c →
         c - res * 500000 = T0 + Z.of_nat i * (res * 1000000)
         ∧ T0 ≤ c - res * 500000 < T1)
    ∧ T1 ≤ T0 + Z.of_nat (length (bin_centers plot)) * (res * 1000000).
Proof.
  intros Hmin Hmax HT Hres.
  destruct (plot_of_positive_resolution df res T0 T1 Hmin Hmax HT Hres)
    as (plot & Hplot & Hcenters & Hbins).
  pose proof (ceiling_brackets (T1 - T0) res Hres) as Hbr. cbv zeta in Hbr.
  set (n := Qceiling (total_seconds (T1 - T0) / inject_Z res)%Q) in *.
  exists plot. split; [exact Hplot|]. rewrite Hcenters. split.
  - intros i c Hc. rewrite list_lookup_fmap in Hc.
    destruct (seq 0 (Z.to_nat n) !! i) as [k|] eqn:Hk; [|discriminate].
    apply lookup_seq in Hk as [-> Hk]. injection Hc as <-.
    split; [lia|]. nia.
  - rewrite length_fmap, length_seq. lia.
Qed.

Lemma bins_cover_the_time_range_witness :
  ∃ plot, plot_concurrent_jobs three_jobs 7 = Returned (Some plot)
    ∧ (∀ (i : nat) (c : datetime), bin_centers plot !! i = Some c →
         c - 7 * 500000 = 1000000000 + Z.of_nat i * (7 * 1000000)
         ∧ 1000000000 ≤ c - 7 * 500000 < 1025000000)
    ∧ 1025000000
      ≤ 1000000000 + Z.of_nat (length (bin_centers plot)) * (7 * 1000000).
Proof.
  apply (bins_cover_the_time_range three_jobs 7 1000000000 1025000000);
    [reflexivity | reflexivity | lia | lia].
Defined.

Lemma ceiling_of_zero (res : Z) :
  Qceiling (total_seconds 0 / inject_Z res)%Q = 0.
Proof.
  assert (total_seconds 0 / inject_Z res == 0)%Q as ->; [|reflexivity].
  unfold Qeq, total_seconds, Qdiv, Qmult. cbn [Qnum Qden]. lia.
Qed.

(** X10: when the earliest start and the latest completion of the timed
    jobs coincide (a single job that completes the instant it starts, for
    one), no bin is created and the script stops with [ValueError] at
    [max(concurrent_counts)], whatever the positive resolution. *)
Theorem empty_time_range_has_no_bins (df : list JobRecord) (res T : Z) :
  minimum (intervals df).*1 = Some T →
  maximum (intervals df).*2 = Some T →
  0 < res →
  plot_concurrent_jobs df res = Raised ValueError.
Proof.
  intros Hmin Hmax Hres. rewrite plot_is_estimate. unfold estimate.
  rewrite Hmin, Hmax.
  apply minimum_Some_length in Hmin. rewrite length_fmap in Hmin.
  destruct (Nat.eqb_spec (length (intervals df)) 0) as [|_]; [contradiction|].
  destruct (Z.eqb_spec res 0) as [|_]; [lia|].
  rewrite Z.sub_diag, ceiling_of_zero. reflexivity.
Qed.

Lemma empty_time_range_has_no_bins_witness :
  plot_concurrent_jobs (parse_condor_history [Ads.ran 1000 1000]) 30
  = Raised ValueError.
Proof.
  apply (empty_time_range_has_no_bins _ 30 1000000000);
    [reflexivity | reflexivity | lia].
Defined.

End ConcurrencyMore.

(** ** plot_completion_curve.py: the curve itself *)

Section CompletionCurveMore.
Import CondorToParquet Numpy PlotCompletionCurve.

Lemma sorted_is_Sorted (xs : list Z) : Sorted Z.le (sorted xs).
Proof. apply Sorted_merge_sort. apply _. Qed.

Lemma sorted_Permutation_eq (xs ys : list Z) : xs ≡ₚ ys → sorted xs = sorted ys.
Proof.
  intros Hp. apply (Sorted_unique Z.le); try apply sorted_is_Sorted.
  rewrite !sorted_Permutation. exact Hp.
Qed.

(** X11: when the first and the last completion differ, the curve lists
    every present completion instant exactly once, in ascending order,
    against the counts 1, 2, ..., n; it starts at the earliest and ends at
    the latest completion. *)
Theorem completion_curve_is_sorted_and_complete (df : list JobRecord)
    (first last : datetime) :
  minimum (completions df) = Some first →
  maximum (completions df) = Some last →
  first ≠ last →
  ∃ plot, plot_completion_curve df = Returned plot
    ∧ Sorted Z.le (completion_times plot)
    ∧ completion_times plot ≡ₚ completions df
    ∧ cumulative_count plot
      = (λ i : nat, Z.of_nat i) <$> seq 1 (length (completions df))
    ∧ length (cumulative_count plot) = length (completion_times plot)
    ∧ head (completion_times plot) = Some first
    ∧ List.last (completion_times plot) first = last.
Proof.
  intros Hmin Hmax Hne. unfold plot_completion_curve.
  fold (completions df).
  rewrite minimum_sorted, maximum_sorted, Hmin, Hmax, length_sorted.
  rewrite minutes_nonzero by lia.
  eexists. split; [reflexivity|]. cbn [completion_times cumulative_count].
  pose proof (sorted_is_Sorted (completions df)) as Hs.
  pose proof (sorted_Permutation (completions df)) as Hp.
  split; [exact Hs|]. split; [exact Hp|]. split; [reflexivity|].
  split; [rewrite length_fmap, length_seq, length_sorted; reflexivity|].
  apply minimum_spec in Hmin as [Hmin_in Hmin_all].
  apply maximum_spec in Hmax as [Hmax_in Hmax_all].
  rewrite <- Hp in Hmin_in, Hmin_all, Hmax_in, Hmax_all.
  apply Sorted_StronglySorted in Hs; [|apply _].
  clear Hp. generalize dependent (sorted (completions df)). intros s. split.
  - destruct s as [|x s]; [apply elem_of_nil in Hmin_in; destruct Hmin_in|].
    cbn. f_equal.
    apply StronglySorted_inv in Hs as [_ Hx].
    apply Forall_cons in Hmin_all as [Hfx _].
    apply elem_of_cons in Hmin_in as [->|Hin]; [reflexivity|].
    rewrite Forall_forall in Hx. specialize (Hx _ Hin). lia.
  - assert (∀ d, s ≠ [] → List.last s d ∈ s) as Hlast_in.
    { clear. intros d. induction s as [|x [|y s] IH]; intros Hne;
        [congruence | left | right; apply IH; discriminate]. }
    assert (∀ d, StronglySorted Z.le s → Forall (λ y, y ≤ List.last s d) s)
      as Hlast_max.
    { clear. intros d. induction s as [|x [|y s] IH]; intros Hs.
      - constructor.
      - repeat constructor. cbn. lia.
      - apply StronglySorted_inv in Hs as [Hs Hx].
        specialize (IH Hs). constructor; [|exact IH].
        rewrite Forall_forall in Hx.
        assert (List.last (y :: s) d ∈ y :: s) as Hin.
        { clear -s. revert y. induction s as [|z s IH]; intros y;
            [left | right; apply IH]. }
        change (List.last (x :: y :: s) d) with (List.last (y :: s) d).
        apply Hx, Hin. }
    destruct s as [|x s]; [apply elem_of_nil in Hmin_in; destruct Hmin_in|].
    specialize (Hlast_in first ltac:(discriminate)).
    specialize (Hlast_max first Hs).
    rewrite Forall_forall in Hmax_all, Hlast_max.
    specialize (Hmax_all _ Hlast_in). specialize (Hlast_max _ Hmax_in).
    cbv beta in Hmax_all, Hlast_max. apply Z.le_antisymm; assumption.
Qed.

Lemma completion_curve_is_sorted_and_complete_witness :
  ∃ plot, plot_completion_curve two_jobs = Returned plot
    ∧ Sorted Z.le (completion_times plot)
    ∧ completion_times plot ≡ₚ completions two_jobs
    ∧ cumulative_count plot
      = (λ i : nat, Z.of_nat i) <$> seq 1 (length (completions two_jobs))
    ∧ length (cumulative_count plot) = length (completion_times plot)
    ∧ head (completion_times plot) = Some (fromtimestamp 1060)
    ∧ List.last (completion_times plot) (fromtimestamp 1060) = fromtimestamp 1180.
Proof.
  apply (completion_curve_is_sorted_and_complete two_jobs);
    [reflexivity | reflexivity | discriminate].
Defined.

(** X12: the outcome depends only on the present completion instants as a
    multiset: neither the order of the rows nor the rows without a
    completion instant change the curve or the statistics. *)
Theorem completion_curve_ignores_row_order (df df' : list JobRecord) :
  completions df ≡ₚ completions df' →
  plot_completion_curve df = plot_completion_curve df'.
Proof.
  intros Hp. unfold plot_completion_curve. fold (completions df) (completions df').
  rewrite (sorted_Permutation_eq _ _ Hp). reflexivity.
Qed.

Lemma completion_curve_ignores_row_order_witness :
  plot_completion_curve two_jobs
  = plot_completion_curve (parse_condor_history [∅] ++ rev two_jobs).
Proof.
  apply (completion_curve_ignores_row_order two_jobs).
  change (completions two_jobs ≡ₚ rev (completions two_jobs)).
  apply Permutation_rev.
Defined.

End CompletionCurveMore.

(** ** plot_duration_histograms.py: what trimming keeps *)

Section DistributionMore.
Import Numpy PlotDurationHistograms.

Lemma filter_split_length {A : Type} (f : A → bool) (xs : list A) :
  (length (List.filter f xs) + length (List.filter (λ x, negb (f x)) xs)
   = length xs)%nat.
Proof.
  induction xs as [|x xs IH]; [reflexivity|].
  cbn [List.filter]. destruct (f x); cbn [negb length]; lia.
Qed.

Lemma filter_sublist {A : Type} (f : A → bool) (xs : list A) :
  sublist (List.filter f xs) xs.
Proof.
  induction xs as [|x xs IH]; [constructor|].
  cbn [List.filter]. destruct (f x).
  - apply sublist_skip, IH.
  - apply sublist_cons, IH.
Qed.

(** The drawn samples are the positive samples at or below the trim
    bound, and all of them when there is no bound. *)
Lemma drawn_samples (column : list (option Z)) (h : PhaseHistogram) :
  phase_histogram column = Some h →
  (∀ bound, x_max h = Some bound →
     ∀ d, d ∈ data_positive h →
          (d ∈ data_to_plot h ↔ (inject_Z d <= bound)%Q))
  ∧ (x_max h = None → data_to_plot h = data_positive h).
Proof.
  unfold phase_histogram. fold (positive_sample column).
  destruct (length (positive_sample column) =? 0)%nat; [discriminate|].
  destruct (Qgt_bool _ _); intros [= <-];
    cbn [data_to_plot data_positive x_max].
  - split; [|discriminate].
    intros b [= <-] d Hd. rewrite list_elem_of_In, filter_In, <- list_elem_of_In.
    rewrite Qle_bool_iff. tauto.
  - split; [discriminate | reflexivity].
Qed.

(** X13: every positive sample is either drawn or counted as excluded,
    never both and never neither: the drawn samples are those at or below
    the trim bound, in their original order, and together with the
    excluded count they add up to the size of the positive sample; without
    trimming everything is drawn. *)
Theorem trimming_partitions_the_sample (column : list (option Z))
    (h : PhaseHistogram) :
  phase_histogram column = Some h →
  Z.of_nat (length (data_to_plot h)) + n_excluded h
  = Z.of_nat (length (data_positive h))
  ∧ sublist (data_to_plot h) (data_positive h)
  ∧ (∀ bound, x_max h = Some bound →
       ∀ d, d ∈ data_positive h →
            (d ∈ data_to_plot h ↔ (inject_Z d <= bound)%Q))
  ∧ (x_max h = None → data_to_plot h = data_positive h).
Proof.
  unfold phase_histogram. fold (positive_sample column).
  destruct (length (positive_sample column) =? 0)%nat; [discriminate|].
  destruct (Qgt_bool _ _); intros [= <-];
    cbn [data_to_plot n_excluded data_positive x_max].
  - set (bound := py_min _ _). split; [|split; [|split]].
    + rewrite <- (filter_split_length (λ d, Qle_bool (inject_Z d) bound)
                    (positive_sample column)).
      unfold Qgt_bool. lia.
    + apply filter_sublist.
    + intros b [= <-] d Hd. rewrite list_elem_of_In, filter_In, <- list_elem_of_In.
      rewrite Qle_bool_iff. tauto.
    + discriminate.
  - split; [lia|]. split; [reflexivity|]. split; [discriminate | reflexivity].
Qed.

Definition heavy_tail_histogram : PhaseHistogram :=
  {| data_positive := heavy_tail_sample;
     mean_val := (550 # 6)%Q;
     median_val := (20 # 2)%Q;
     outlier_detected := true;
     x_max := Some (47555 # 100)%Q;
     data_to_plot := [10; 10; 11; 9; 10];
     plot_mean := (50 # 5)%Q;
     n_excluded := 1 |}.

Lemma trimming_partitions_the_sample_witness :
  Z.of_nat (length (data_to_plot heavy_tail_histogram))
    + n_excluded heavy_tail_histogram
  = Z.of_nat (length (data_positive heavy_tail_histogram))
  ∧ sublist (data_to_plot heavy_tail_histogram) (data_positive heavy_tail_histogram)
  ∧ (∀ bound, x_max heavy_tail_histogram = Some bound →
       ∀ d, d ∈ data_positive heavy_tail_histogram →
            (d ∈ data_to_plot heavy_tail_histogram ↔ (inject_Z d <= bound)%Q))
  ∧ (x_max heavy_tail_histogram = None →
     data_to_plot heavy_tail_histogram = data_positive heavy_tail_histogram).
Proof.
  apply (trimming_partitions_the_sample heavy_tail_column heavy_tail_histogram).
  vm_compute. reflexivity.
Defined.

(** A rank inside the sorted sample is at least the smallest sample. *)
Lemma nth_sorted_ge (xs : list Z) (low : Z) (i : nat) :
  minimum xs = Some low → (i < length xs)%nat → low ≤ nth i (sorted xs) 0.
Proof.
  intros Hmin Hi. rewrite nth_lookup.
  destruct (sorted xs !! i) as [x|] eqn:Hx; simpl.
  - apply list_elem_of_lookup_2 in Hx. rewrite sorted_Permutation in Hx.
    apply minimum_spec in Hmin as [_ Hall].
    rewrite Forall_forall in Hall. apply Hall, Hx.
  - apply lookup_ge_None in Hx. rewrite length_sorted in Hx. lia.
Qed.

Lemma interpolation_ge (a b low g : Q) :
  (low <= a → low <= b → 0 <= g → g <= 1 → low <= a + g * (b - a))%Q.
Proof. intros Ha Hb Hg0 Hg1. nra. Qed.

(** A percentile between 0 and 100 lies at or above the smallest sample. *)
Lemma percentile_ge_minimum (xs : list Z) (q : Q) (low : Z) :
  minimum xs = Some low → (0 <= q)%Q → (q <= 100)%Q →
  (inject_Z low <= percentile xs q)%Q.
Proof.
  intros Hmin Hq0 Hq100. unfold percentile.
  assert (0 < length xs)%nat as Hlen
    by (destruct xs; [discriminate | simpl; lia]).
  rewrite length_sorted.
  set (n := Z.of_nat (length xs)).
  set (h := (inject_Z (n - 1) * (q / 100))%Q).
  assert (0 <= q / 100)%Q as Ht0
    by (apply Qle_shift_div_l; [reflexivity | rewrite Qmult_0_l; exact Hq0]).
  assert (q / 100 <= 1)%Q as Ht1
    by (apply Qle_shift_div_r; [reflexivity | rewrite Qmult_1_l; exact Hq100]).
  assert (0 <= inject_Z (n - 1))%Q as HA
    by (change 0%Q with (inject_Z 0); rewrite <- Zle_Qle; lia).
  assert (0 <= h)%Q as Hh0 by (unfold h; nra).
  assert (h <= inject_Z (n - 1))%Q as Hh1 by (unfold h; nra).
  assert (0 ≤ Qfloor h ≤ n - 1) as Hlo.
  { split.
    - rewrite <- (Qfloor_Z 0). apply Qfloor_resp_le. exact Hh0.
    - rewrite <- (Qfloor_Z (n - 1)). apply Qfloor_resp_le. exact Hh1. }
  assert (low ≤ nth (Z.to_nat (Qfloor h)) (sorted xs) 0) as Ha
    by (apply nth_sorted_ge; [exact Hmin | lia]).
  assert (low ≤ nth (Z.to_nat (Z.min (Qfloor h + 1) (n - 1))) (sorted xs) 0) as Hb
    by (apply nth_sorted_ge; [exact Hmin | lia]).
  set (a := nth (Z.to_nat (Qfloor h)) (sorted xs) 0) in *.
  set (b := nth (Z.to_nat (Z.min (Qfloor h + 1) (n - 1))) (sorted xs) 0) in *.
  assert (inject_Z (b - a) == inject_Z b - inject_Z a)%Q as ->
    by (unfold Z.sub; rewrite inject_Z_plus, inject_Z_opp; reflexivity).
  apply interpolation_ge.
  - rewrite <- Zle_Qle. exact Ha.
  - rewrite <- Zle_Qle. exact Hb.
  - pose proof (Qfloor_le h). lra.
  - pose proof (Qlt_floor h) as Hlt. rewrite inject_Z_plus in Hlt.
    change (inject_Z 1) with 1%Q in Hlt. lra.
Qed.

Lemma py_min_cases (a b : Q) : py_min a b = a ∨ py_min a b = b.
Proof. unfold py_min. destruct (Qgt_bool a b); auto. Qed.

Lemma last_edge_ge_minimum (xs : list Z) (low : Z) :
  minimum xs = Some low → (inject_Z low <= histogram_auto_last_edge xs)%Q.
Proof.
  intros Hmin. unfold histogram_auto_last_edge. rewrite Hmin.
  destruct (maximum xs) as [top|] eqn:Hmax;
    [|destruct xs; discriminate].
  assert (low ≤ top) as Hle.
  { apply minimum_spec in Hmin as [_ Hall]. apply maximum_spec in Hmax as [Hin _].
    rewrite Forall_forall in Hall. apply Hall, Hin. }
  rewrite Zle_Qle in Hle.
  destruct (low =? top); lra.
Qed.

(** X14: the smallest positive sample is always among the drawn ones, so
    the trimmed data is never empty and its mean is defined; when
    trimming is on, the trim bound lies at or above the smallest sample. *)
Theorem smallest_sample_is_always_drawn (column : list (option Z))
    (h : PhaseHistogram) (low : Z) :
  phase_histogram column = Some h →
  minimum (data_positive h) = Some low →
  low ∈ data_to_plot h
  ∧ data_to_plot h ≠ []
  ∧ ∀ bound, x_max h = Some bound → (inject_Z low <= bound)%Q.
Proof.
  intros Hh Hmin.
  assert (low ∈ data_positive h) as Hin by (apply minimum_spec in Hmin; tauto).
  assert (∀ bound, x_max h = Some bound → (inject_Z low <= bound)%Q) as Hbound.
  { revert Hh Hmin. unfold phase_histogram. fold (positive_sample column).
    destruct (length (positive_sample column) =? 0)%nat; [discriminate|].
    destruct (Qgt_bool _ _); intros [= <-]; cbn [data_positive x_max];
      intros Hmin bound [= <-].
    destruct (py_min_cases (histogram_auto_last_edge (positive_sample column))
                (percentile (positive_sample column) 99)) as [-> | ->].
    - apply last_edge_ge_minimum, Hmin.
    - apply percentile_ge_minimum; [exact Hmin | lra | lra]. }
  assert (low ∈ data_to_plot h) as Hdrawn.
  { destruct (drawn_samples column h Hh) as (Hiff & Hall).
    destruct (x_max h) as [bound|] eqn:Hx.
    - apply (Hiff bound eq_refl low Hin). apply Hbound. reflexivity.
    - rewrite (Hall eq_refl). exact Hin. }
  split; [exact Hdrawn|]. split; [|exact Hbound].
  intros Hnil. rewrite Hnil in Hdrawn. apply elem_of_nil in Hdrawn. exact Hdrawn.
Qed.

Lemma smallest_sample_is_always_drawn_witness :
  9 ∈ data_to_plot heavy_tail_histogram
  ∧ data_to_plot heavy_tail_histogram ≠ []
  ∧ ∀ bound, x_max heavy_tail_histogram = Some bound → (inject_Z 9 <= bound)%Q.
Proof.
  apply (smallest_sample_is_always_drawn heavy_tail_column heavy_tail_histogram 9).
  - vm_compute. reflexivity.
  - reflexivity.
Defined.

Lemma sorted_pair (a b : Z) :
  sorted [a; b] = if decide (a ≤ b) then [a; b] else [b; a].
Proof.
  unfold sorted, merge_sort. cbn. destruct (decide (a ≤ b)); reflexivity.
Qed.

Lemma small_sample_mean_is_median (xs : list Z) :
  (0 < length xs ≤ 2)%nat → (mean xs == median xs)%Q.
Proof.
  destruct xs as [|a [|b [|c xs]]]; cbn [length]; try lia; intros _.
  - unfold mean, median, sorted, merge_sort, sum.
    change (Z.of_nat (length [a])) with 1. cbn.
    unfold Qeq, Qdiv, Qmult, Qinv, inject_Z. cbn. lia.
  - unfold mean, median. rewrite sorted_pair. unfold sum.
    change (Z.of_nat (length [a; b])) with 2.
    destruct (decide (a ≤ b)); cbn;
      unfold Qeq, Qdiv, Qmult, Qinv, inject_Z; cbn; lia.
Qed.

(** X15: with one or two positive durations the mean and the median
    coincide, so trimming is never switched on and every sample is
    drawn. *)
Theorem small_samples_are_never_trimmed (column : list (option Z))
    (h : PhaseHistogram) :
  phase_histogram column = Some h →
  (length (data_positive h) ≤ 2)%nat →
  outlier_detected h = false ∧ x_max h = None
  ∧ data_to_plot h = data_positive h ∧ n_excluded h = 0.
Proof.
  unfold phase_histogram. fold (positive_sample column).
  destruct (Nat.eqb_spec (length (positive_sample column)) 0) as [|Hlen];
    [discriminate|].
  destruct (Qgt_bool _ _) eqn:Hout; intros [= <-]; cbn [data_positive];
    intros Hsmall; [exfalso | repeat split].
  apply Qgt_bool_lt in Hout.
  pose proof (small_sample_mean_is_median (positive_sample column)
                ltac:(lia)) as Heq.
  assert (0 < mean (positive_sample column))%Q as Hpos.
  { unfold mean. apply Qlt_shift_div_l.
    - change 0%Q with (inject_Z 0). rewrite <- Zlt_Qlt. lia.
    - rewrite Qmult_0_l. change 0%Q with (inject_Z 0). rewrite <- Zlt_Qlt.
      assert (Forall (λ d, 0 < d) (positive_sample column)) as Hall
        by (apply Forall_forall; intros d; apply positive_sample_positive).
      destruct (positive_sample column) as [|a ds]; [simpl in Hlen; lia|].
      clear -Hall. apply Forall_cons in Hall as [Ha Hds].
      unfold sum. cbn [foldr].
      assert (0 ≤ foldr Z.add 0 ds); [|lia].
      induction Hds; cbn [foldr]; lia. }
  lra.
Qed.

(** Two positive durations far apart, next to a missing and a zero one. *)
Definition two_samples_column : list (option Z) :=
  [Some 1; None; Some 500; Some 0].

Definition two_samples_histogram : PhaseHistogram :=
  {| data_positive := [1; 500];
     mean_val := (501 # 2)%Q;
     median_val := (501 # 2)%Q;
     outlier_detected := false;
     x_max := None;
     data_to_plot := [1; 500];
     plot_mean := (501 # 2)%Q;
     n_excluded := 0 |}.

Lemma small_samples_are_never_trimmed_witness :
  outlier_detected two_samples_histogram = false
  ∧ x_max two_samples_histogram = None
  ∧ data_to_plot two_samples_histogram = data_positive two_samples_histogram
  ∧ n_excluded two_samples_histogram = 0.
Proof.
  apply (small_samples_are_never_trimmed two_samples_column two_samples_histogram).
  - vm_compute. reflexivity.
  - vm_compute. lia.
Defined.

(** X16: a column is skipped exactly when it holds no positive duration;
    otherwise its positive sample is the column without the missing, the
    zero and the negative entries, in the original order. *)
Theorem column_is_skipped_iff_no_positive (column : list (option Z)) :
  (phase_histogram column = None ↔ ∀ d, Some d ∈ column → d ≤ 0)
  ∧ (∀ h, phase_histogram column = Some h →
       sublist (Some <$> data_positive h) column
       ∧ ∀ d, d ∈ data_positive h ↔ Some d ∈ column ∧ 0 < d).
Proof.
  assert (Hmem : ∀ d, d ∈ positive_sample column ↔ Some d ∈ column ∧ 0 < d).
  { intros d. unfold positive_sample.
    rewrite list_elem_of_In, filter_In, <- list_elem_of_In, list_elem_of_omap.
    split.
    - intros [(o & Ho & Hd) Hpos]. cbn in Hd. subst o. split; [exact Ho | lia].
    - intros [Ho Hpos]. split; [exists (Some d); auto | lia]. }
  split.
  - unfold phase_histogram. fold (positive_sample column).
    destruct (Nat.eqb_spec (length (positive_sample column)) 0) as [Hlen|Hlen].
    + split; [intros _|reflexivity]. intros d Hd.
      destruct (Z_lt_le_dec 0 d) as [Hpos|]; [|assumption]. exfalso.
      assert (d ∈ positive_sample column) as Hin by (apply Hmem; auto).
      destruct (positive_sample column); [|discriminate].
      apply elem_of_nil in Hin. exact Hin.
    + split; [destruct (Qgt_bool _ _); discriminate|].
      intros Hall. exfalso. apply Hlen.
      destruct (positive_sample column) as [|d ds] eqn:Hs; [reflexivity|].
      destruct (proj1 (Hmem d)) as [Hin Hpos]; [left|].
      specialize (Hall d Hin). lia.
  - intros h Hh.
    assert (data_positive h = positive_sample column) as ->.
    { revert Hh. unfold phase_histogram. fold (positive_sample column).
      destruct (length (positive_sample column) =? 0)%nat; [discriminate|].
      destruct (Qgt_bool _ _); intros [= <-]; reflexivity. }
    split; [|exact Hmem].
    unfold positive_sample. clear.
    induction column as [|[d|] column IH]; cbn [omap list_omap id List.filter].
    + constructor.
    + cbn. destruct (d >? 0); cbn [fmap list_fmap].
      * apply sublist_skip, IH.
      * apply sublist_cons, IH.
    + apply sublist_cons, IH.
Qed.

End DistributionMore.

(** ** condor_to_parquet.py: the printed summary and the command line *)

Section CondorSummary.
Import CondorToParquet Numpy CondorStatistics.

Lemma remove_dups_strictly_sorted (xs : list Z) :
  StronglySorted Z.le xs → StronglySorted Z.lt (remove_dups xs).
Proof.
  induction 1 as [|x xs Hs IH Hx]; cbn [remove_dups]; [constructor|].
  destruct (decide_rel elem_of x xs) as [|Hnotin]; [exact IH|].
  constructor; [exact IH|].
  apply Forall_forall. intros y Hy. rewrite elem_of_remove_dups in Hy.
  rewrite Forall_forall in Hx. specialize (Hx y Hy).
  assert (x ≠ y) by (intros ->; contradiction). lia.
Qed.

Lemma indicator_sum (keys : list Z) (x : Z) :
  NoDup keys → x ∈ keys →
  sum_list ((λ k, if k =? x then 1%nat else 0%nat) <$> keys) = 1%nat.
Proof.
  induction 1 as [|k keys Hk Hnd IH]; intros Hx.
  - apply elem_of_nil in Hx. destruct Hx.
  - cbn [fmap list_fmap sum_list_with id]. destruct (Z.eqb_spec k x) as [->|Hne].
    + assert (sum_list ((λ k, if k =? x then 1%nat else 0%nat) <$> keys) = 0%nat)
        as ->; [|reflexivity].
      clear IH Hnd Hx. induction keys as [|j keys IH]; [reflexivity|].
      cbn [fmap list_fmap sum_list_with id].
      destruct (Z.eqb_spec j x) as [->|_]; [exfalso; apply Hk; left|].
      rewrite IH; [reflexivity|]. intros Hin. apply Hk. right. exact Hin.
    + apply elem_of_cons in Hx as [->|Hx]; [congruence|].
      rewrite IH by exact Hx. reflexivity.
Qed.

Lemma counts_sum (keys values : list Z) :
  NoDup keys → (∀ v, v ∈ values → v ∈ keys) →
  sum_list ((λ k, length (List.filter (Z.eqb k) values)) <$> keys) = length values.
Proof.
  intros Hnd. induction values as [|x values IH]; intros Hsub.
  - induction keys as [|k keys IHk]; [reflexivity|].
    cbn [fmap list_fmap sum_list_with id List.filter length].
    apply IHk; [apply NoDup_cons in Hnd; tauto|].
    intros v Hv. apply elem_of_nil in Hv. destruct Hv.
  - assert (sum_list ((λ k, length (List.filter (Z.eqb k) (x :: values))) <$> keys)
            = (sum_list ((λ k, if (k =? x)%Z then 1%nat else 0%nat) <$> keys)
               + sum_list ((λ k, length (List.filter (Z.eqb k) values)) <$> keys))%nat)
      as ->.
    { clear. induction keys as [|k keys IHk]; [reflexivity|].
      cbn [fmap list_fmap sum_list_with id].
      rewrite IHk. cbn [List.filter]. destruct (k =? x); cbn [length]; lia. }
    rewrite indicator_sum by (auto; apply Hsub; left).
    rewrite IH by (intros v Hv; apply Hsub; right; exact Hv).
    reflexivity.
Qed.

Lemma value_counts_total (col : list pyval) :
  sum_list (snd <$> value_counts_sorted col)
  = length (omap GanttStatistics.not_null col).
Proof.
  unfold value_counts_sorted. rewrite <- list_fmap_compose.
  apply counts_sum.
  - apply NoDup_remove_dups.
  - intros v Hv. apply elem_of_remove_dups. rewrite sorted_Permutation. exact Hv.
Qed.

Lemma omap_not_null_length (col : list pyval) :
  (length (omap GanttStatistics.not_null col) ≤ length col)%nat
  ∧ ((∀ v, v ∈ col → v ≠ PNone) →
     length (omap GanttStatistics.not_null col) = length col).
Proof.
  induction col as [|[|z] col [IH1 IH2]];
    cbn [omap list_omap GanttStatistics.not_null length].
  - split; [lia | reflexivity].
  - split; [lia|]. intros H. exfalso. apply (H PNone); [left | reflexivity].
  - split; [lia|]. intros H. f_equal. apply IH2. intros v Hv. apply H. right. exact Hv.
Qed.

(** X17: the summary of a table with at least one job is consistent: the
    jobs with and without a completion date add up to the total, the
    failed jobs are at most the total, the statuses of the breakdown are
    listed once each in ascending order, and its counts account for every
    job without completion date whose status is not null (for all of them
    when no status is null). *)
Theorem condor_summary_is_consistent (df : list JobRecord) :
  df ≠ [] →
  let st := print_statistics df in
  (jobs_with_completion st + jobs_without_completion st = total_jobs st)%nat
  ∧ (failed_jobs st ≤ total_jobs st)%nat
  ∧ StronglySorted Z.lt (fst <$> status_breakdown st)
  ∧ (sum_list (snd <$> status_breakdown st) ≤ jobs_without_completion st)%nat
  ∧ ((∀ row, row ∈ df → job_status row ≠ PNone) →
     sum_list (snd <$> status_breakdown st) = jobs_without_completion st).
Proof.
  intros _. cbv zeta. unfold print_statistics.
  cbn [jobs_with_completion jobs_without_completion total_jobs failed_jobs
       status_breakdown].
  set (incomplete :=
         List.filter (λ row, negb (PlotConcurrentJobs.notna (completion_time row))) df).
  split; [apply filter_split_length|].
  split; [apply sublist_length, filter_sublist|].
  destruct (Nat.ltb_spec 0 (length incomplete)) as [Hpos|Hzero].
  - split; [|split].
    + unfold value_counts_sorted. rewrite <- list_fmap_compose.
      cbn [compose fst]. rewrite list_fmap_id.
      apply remove_dups_strictly_sorted, Sorted_StronglySorted;
        [apply _ | apply sorted_is_Sorted].
    + rewrite value_counts_total.
      etransitivity; [apply omap_not_null_length|]. rewrite length_fmap. reflexivity.
    + intros Hall. rewrite value_counts_total.
      rewrite (proj2 (omap_not_null_length _)); [apply length_fmap|].
      intros v Hv. apply list_elem_of_fmap in Hv as (row & -> & Hrow).
      apply Hall. unfold incomplete in Hrow.
      apply list_elem_of_In, filter_In in Hrow as [Hrow _].
      apply list_elem_of_In. exact Hrow.
  - split; [constructor|]. split; [cbn; lia|]. intros _. cbn. lia.
Qed.

(** A job that ran to completion, an idle job and a job removed during its
    output transfer. *)
Definition mixed_table : list JobRecord :=
  parse_condor_history
    [Ads.ran 1000 1010; <["JobStatus" := PInt 1]> ∅;
     <["JobStatus" := PInt 3]> (<["JobCurrentStartTransferOutputDate" := PInt 100]> ∅)].

Lemma condor_summary_is_consistent_witness :
  let st := print_statistics mixed_table in
  (jobs_with_completion st + jobs_without_completion st = total_jobs st)%nat
  ∧ (failed_jobs st ≤ total_jobs st)%nat
  ∧ StronglySorted Z.lt (fst <$> status_breakdown st)
  ∧ (sum_list (snd <$> status_breakdown st) ≤ jobs_without_completion st)%nat
  ∧ ((∀ row, row ∈ mixed_table → job_status row ≠ PNone) →
     sum_list (snd <$> status_breakdown st) = jobs_without_completion st).
Proof.
  apply (condor_summary_is_consistent mixed_table). vm_compute. discriminate.
Defined.

(** X18: the command line never converts twice.  A first run on a history
    with at least one ad writes the table of that history and exits with
    0; a second run, whatever the history file holds by then, loads that
    table, prints the same summary, leaves the table as it is and exits
    with 0 again. *)
Theorem second_run_reuses_the_table (data data' : list (gmap string pyval)) :
  data ≠ [] →
  let first := main {| json_file := Some data; parquet_file := None |} in
  let second :=
    main {| json_file := Some data';
            parquet_file := parquet_file (files_after first) |} in
  exit_code first = 0
  ∧ parquet_file (files_after first) = Some (parse_condor_history data)
  ∧ exit_code second = 0
  ∧ printed second = printed first
  ∧ parquet_file (files_after second) = Some (parse_condor_history data).
Proof.
  intros Hdata. cbv zeta. unfold main at 2. cbn [json_file parquet_file].
  assert ((length (parse_condor_history data) =? 0)%nat = false) as Hlen.
  { apply Nat.eqb_neq. unfold parse_condor_history. rewrite length_fmap.
    destruct data; [congruence | discriminate]. }
  rewrite Hlen. cbn [files_after parquet_file exit_code printed].
  unfold main. cbn [json_file parquet_file]. rewrite Hlen.
  cbn [files_after parquet_file exit_code printed]. rewrite Hlen.
  repeat split.
Qed.

Lemma second_run_reuses_the_table_witness :
  let first := main {| json_file := Some [Ads.ran 1000 1010]; parquet_file := None |} in
  let second :=
    main {| json_file := Some [];
            parquet_file := parquet_file (files_after first) |} in
  exit_code first = 0
  ∧ parquet_file (files_after first) = Some (parse_condor_history [Ads.ran 1000 1010])
  ∧ exit_code second = 0
  ∧ printed second = printed first
  ∧ parquet_file (files_after second) = Some (parse_condor_history [Ads.ran 1000 1010]).
Proof.
  apply (second_run_reuses_the_table [Ads.ran 1000 1010] []). discriminate.
Defined.

(** X19: the command line fails with exit code 1, prints no summary and
    writes nothing when the history file is missing, or when there is no
    table yet and the history holds no ad; and no run ever changes a table
    that already exists. *)
Theorem failed_runs_write_nothing (fs : Files) :
  (json_file fs = None ∨ (json_file fs = Some [] ∧ parquet_file fs = None) →
   main fs = {| exit_code := 1; printed := None; files_after := fs |})
  ∧ (∀ df, parquet_file fs = Some df →
           parquet_file (files_after (main fs)) = Some df)
  ∧ json_file (files_after (main fs)) = json_file fs.
Proof.
  unfold main. destruct fs as [[data|] [df|]]; cbn [json_file parquet_file].
  - split; [intros [[=]|[_ [=]]]|]. split.
    + intros df' [= <-]. destruct (length df =? 0)%nat; reflexivity.
    + destruct (length df =? 0)%nat; reflexivity.
  - split; [intros [[=]|[[= ->] _]]; reflexivity|]. split; [intros df [=]|].
    destruct (length (parse_condor_history data) =? 0)%nat; reflexivity.
  - split; [reflexivity|]. split; [intros df' [= <-]|]; reflexivity.
  - split; [reflexivity|]. split; [intros df [=] | reflexivity].
Qed.

End CondorSummary.

(** ** analyze_jobs.py: the job id and the order of the steps *)

Section Driver.
Import AnalyzeJobs.

(** Every character of [s] passes [f]. *)
Fixpoint every (f : Ascii.ascii → bool) (s : string) : bool :=
  match s with
  | String c rest => f c && every f rest
  | EmptyString => true
  end.

(** A character of the ASCII range. *)
Definition is_ascii (c : Ascii.ascii) : bool :=
  (Ascii.nat_of_ascii c <? 128)%nat.

(** [s] does not begin with a digit. *)
Definition no_leading_digit (s : string) : Prop :=
  match s with
  | String c _ => is_digit c = false
  | EmptyString => True
  end.

Lemma leading_digits_split (s : string) :
  ∃ post, s = leading_digits s +:+ post
          ∧ every is_digit (leading_digits s) = true
          ∧ no_leading_digit post.
Proof.
  induction s as [|c s (post & Hs & Hd & Hpost)].
  - exists EmptyString. repeat split.
  - cbn [leading_digits]. destruct (is_digit c) eqn:Hc.
    + exists post. split; [|split; [|exact Hpost]].
      * change (String c s = String c (leading_digits s +:+ post)).
        rewrite <- Hs. reflexivity.
      * cbn [every]. rewrite Hc, Hd. reflexivity.
    + exists (String c s). repeat split. exact Hc.
Qed.

Lemma search_digits_split (s : string) :
  match search_digits s with
  | Some id =>
      id ≠ EmptyString ∧ every is_digit id = true
      ∧ ∃ pre post, s = pre +:+ id +:+ post
          ∧ every (λ c, negb (is_digit c)) pre = true
          ∧ no_leading_digit post
  | None => every (λ c, negb (is_digit c)) s = true
  end.
Proof.
  induction s as [|c s IH]; [reflexivity|].
  cbn [search_digits]. destruct (is_digit c) eqn:Hc.
  - destruct (leading_digits_split s) as (post & Hs & Hd & Hpost).
    split; [discriminate|]. split; [cbn [every]; rewrite Hc, Hd; reflexivity|].
    exists EmptyString, post. split; [|split; [reflexivity | exact Hpost]].
    change (String c s = String c (leading_digits s +:+ post)).
    rewrite <- Hs. reflexivity.
  - destruct (search_digits s) as [id|].
    + destruct IH as (Hne & Hd & pre & post & Hs & Hpre & Hpost).
      split; [exact Hne|]. split; [exact Hd|].
      exists (String c pre), post. split; [|split; [|exact Hpost]].
      * change (String c s = String c (pre +:+ id +:+ post)).
        rewrite <- Hs. reflexivity.
      * cbn [every]. rewrite Hc, Hpre. reflexivity.
    + cbn [every]. rewrite Hc, IH. reflexivity.
Qed.

(** X20: for an ASCII path, the job id is the first maximal run of digits
    of the stem of the file name: it is not empty, holds digits only, no
    digit of the stem comes before it and none follows it directly; there
    is no job id exactly when the stem has no digit. *)
Theorem job_id_is_first_digit_run (path : string) :
  every is_ascii path = true →
  match extract_job_id path with
  | Some id =>
      id ≠ EmptyString ∧ every is_digit id = true
      ∧ ∃ pre post, stem path = pre +:+ id +:+ post
          ∧ every (λ c, negb (is_digit c)) pre = true
          ∧ no_leading_digit post
  | None => every (λ c, negb (is_digit c)) (stem path) = true
  end.
Proof. intros _. unfold extract_job_id. apply search_digits_split. Qed.

(** The file name of the module's own example, in a directory whose name
    holds digits too and with a second run of digits in the stem. *)
Lemma job_id_is_first_digit_run_witness :
  extract_job_id "run_7/condor_history_944143.v2.json" = Some "944143"
  ∧ ∃ pre post,
      stem "run_7/condor_history_944143.v2.json" = pre +:+ "944143" +:+ post
      ∧ every (λ c, negb (is_digit c)) pre = true
      ∧ no_leading_digit post.
Proof.
  pose proof (job_id_is_first_digit_run "run_7/condor_history_944143.v2.json")
    as H.
  change (extract_job_id "run_7/condor_history_944143.v2.json")
    with (Some "944143") in H.
  split; [reflexivity|]. apply H. reflexivity.
Defined.

(** X21: nothing is run when the history file is missing.  Otherwise the
    conversion is the first command, and it is run exactly when the output
    directory holds no table yet or [--overwrite-parquet] is given; when
    it fails, the driver stops with exit code 1 and no plot is attempted. *)
Theorem conversion_gates_the_plots (args : Args) (w : World) :
  let run := main args w in
  let dir := choose_output_dir args in
  (json_exists w = false → exit_code run = 1 ∧ commands run = [])
  ∧ (json_exists w = true →
     directory run = Some dir
     ∧ (ConvertJsonToParquet ∈ commands run
        ↔ parquet_exists w dir = false ∨ overwrite_parquet args = true)
     ∧ (ConvertJsonToParquet ∈ commands run →
        head (commands run) = Some ConvertJsonToParquet)
     ∧ (ConvertJsonToParquet ∈ commands run →
        run_command w ConvertJsonToParquet = false →
        exit_code run = 1 ∧ commands run = [ConvertJsonToParquet])).
Proof.
  cbv zeta. unfold main, plot_commands.
  destruct (json_exists w); cbn [negb]; (split; [|intros Hj]);
    try discriminate; try (intros _; split; reflexivity).
  destruct (parquet_exists w (choose_output_dir args)),
           (overwrite_parquet args),
           (run_command w ConvertJsonToParquet), (gantt args);
    cbn [negb andb orb exit_code directory commands app head];
    (split; [reflexivity|]);
    (split; [split;
       [ intros Hin; auto;
         repeat (apply elem_of_cons in Hin as [Hin|Hin]; try discriminate Hin);
         apply elem_of_nil in Hin; destruct Hin
       | intros [Hc|Hc]; try discriminate Hc; left ] |]);
    (split;
      [ intros Hin; try reflexivity;
        repeat (apply elem_of_cons in Hin as [Hin|Hin]; try discriminate Hin);
        apply elem_of_nil in Hin; destruct Hin
      | intros Hin Hfail; try discriminate Hfail; try (split; reflexivity);
        repeat (apply elem_of_cons in Hin as [Hin|Hin]; try discriminate Hin);
        apply elem_of_nil in Hin; destruct Hin ]).
Qed.

(** X22: once the conversion is skipped or has succeeded, every plot is
    attempted whatever happens to the others: the completion curve, the
    Gantt chart when [--gantt] is given (with [--jobs] only for a non-zero
    [--gantt-jobs]), the histograms and the concurrency plot at the given
    resolution, in this order; and the exit code is 0 exactly when all of
    them succeed. *)
Theorem plots_run_independently (args : Args) (w : World) :
  json_exists w = true →
  (parquet_exists w (choose_output_dir args) && negb (overwrite_parquet args)
   || run_command w ConvertJsonToParquet) = true →
  let run := main args w in
  List.filter (λ c, match c with ConvertJsonToParquet => false | _ => true end)
    (commands run)
  = [PlotCompletionCurve]
    ++ (if gantt args
        then [PlotGanttPhases
                (match gantt_jobs args with
                 | Some 0 | None => None
                 | Some n => Some n
                 end)]
        else [])
    ++ [PlotDurationHistograms; PlotConcurrentJobs (resolution args)]
  ∧ (exit_code run = 0
     ↔ ∀ c, c ∈ commands run → c ≠ ConvertJsonToParquet → run_command w c = true)
  ∧ (exit_code run = 0 ∨ exit_code run = 1).
Proof.
  intros Hj Hconv. cbv zeta. unfold main. rewrite Hj. cbn [negb].
  set (skip := parquet_exists w (choose_output_dir args)
               && negb (overwrite_parquet args)) in *.
  assert (negb skip && negb (run_command w ConvertJsonToParquet) = false) as ->
    by (destruct skip, (run_command w ConvertJsonToParquet); auto).
  cbn [commands exit_code]. rewrite List.filter_app.
  assert (List.filter
            (λ c, match c with ConvertJsonToParquet => false | _ => true end)
            (if skip then [] else [ConvertJsonToParquet]) = []) as ->
    by (destruct skip; reflexivity).
  assert (gantt_limit args
          = match gantt_jobs args with
            | Some 0 | None => None
            | Some n => Some n
            end) as Hlimit
    by (unfold gantt_limit; destruct (gantt_jobs args) as [[| |]|]; reflexivity).
  split; [|split].
  - unfold plot_commands. rewrite Hlimit. destruct (gantt args); reflexivity.
  - destruct (forallb (run_command w) (plot_commands args)) eqn:Hall.
    + split; [intros _|reflexivity]. intros c Hc Hne.
      rewrite forallb_forall in Hall. apply Hall, list_elem_of_In.
      apply elem_of_app in Hc as [Hc|Hc]; [|exact Hc].
      destruct skip; [apply elem_of_nil in Hc; destruct Hc|].
      apply list_elem_of_singleton in Hc. contradiction.
    + split; [discriminate|]. intros Hok. exfalso.
      assert (forallb (run_command w) (plot_commands args) = true) as Habs;
        [|congruence].
      apply forallb_forall. intros c Hc. apply list_elem_of_In in Hc.
      apply Hok; [apply elem_of_app; right; exact Hc|].
      unfold plot_commands in Hc. intros ->.
      destruct (gantt args);
        repeat (apply elem_of_cons in Hc as [Hc|Hc]; try discriminate Hc);
        apply elem_of_nil in Hc; destruct Hc.
  - destruct (forallb _ _); auto.
Qed.

Definition sample_args : Args :=
  {| json_file := "condor_history_944143.json";
     output_dir := None;
     resolution := 30;
     gantt := true;
     gantt_jobs := Some 0;
     overwrite_parquet := false |}.

(** A world in which the table is already there and only the histograms
    fail. *)
Definition sample_world : World :=
  {| json_exists := true;
     parquet_exists := λ _, true;
     run_command :=
       λ c, match c with PlotDurationHistograms => false | _ => true end |}.

Lemma plots_run_independently_witness :
  let run := main sample_args sample_world in
  List.filter (λ c, match c with ConvertJsonToParquet => false | _ => true end)
    (commands run)
  = [PlotCompletionCurve]
    ++ (if gantt sample_args
        then [PlotGanttPhases
                (match gantt_jobs sample_args with
                 | Some 0 | None => None
                 | Some n => Some n
                 end)]
        else [])
    ++ [PlotDurationHistograms; PlotConcurrentJobs (resolution sample_args)]
  ∧ (exit_code run = 0
     ↔ ∀ c, c ∈ commands run → c ≠ ConvertJsonToParquet →
            run_command sample_world c = true)
  ∧ (exit_code run = 0 ∨ exit_code run = 1).
Proof.
  apply (plots_run_independently sample_args sample_world); reflexivity.
Defined.

End Driver.

(** ** generate_input_lists.py: the chunks written to the input list *)

Section InputChunks.
Import GenerateInputLists.

Lemma py_round_floor_cases (q : Q) :
  py_round q = Qfloor q ∨ py_round q = Qfloor q + 1.
Proof.
  unfold py_round. destruct (_ ?= _)%Q; [destruct (Z.even _)| |]; auto.
Qed.

Lemma Qfloor_nonneg (q : Q) : (0 <= q)%Q → 0 ≤ Qfloor q.
Proof. intros H. rewrite <- (Qfloor_Z 0). apply Qfloor_resp_le. exact H. Qed.

Lemma Qfloor_nonpos (q : Q) : (q <= 0)%Q → Qfloor q ≤ 0.
Proof. intros H. rewrite <- (Qfloor_Z 0). apply Qfloor_resp_le. exact H. Qed.

Lemma py_round_nonneg (q : Q) : (0 <= q)%Q → 0 ≤ py_round q.
Proof.
  intros H. pose proof (Qfloor_nonneg q H).
  destruct (py_round_floor_cases q) as [-> | ->]; lia.
Qed.

Lemma py_round_nonpos (q : Q) : (q <= 0)%Q → py_round q ≤ 0.
Proof.
  intros H. pose proof (Qfloor_nonpos q H) as Hf.
  destruct (Z.eq_dec (Qfloor q) 0) as [Hz|Hz].
  - unfold py_round. rewrite Hz.
    assert (q - inject_Z 0 < 1 # 2)%Q as Hlt by (unfold inject_Z; lra).
    rewrite Qlt_alt in Hlt. rewrite Hlt. lia.
  - destruct (py_round_floor_cases q) as [-> | ->]; lia.
Qed.

(** At most one half rounds to zero: the tie goes to the even side. *)
Lemma py_round_small (q : Q) : (0 <= q)%Q → (q <= 1 # 2)%Q → py_round q = 0.
Proof.
  intros H0 Hhalf.
  assert (Qfloor q = 0) as Hf.
  { pose proof (Qfloor_nonneg q H0). pose proof (Qfloor_le q) as Hle.
    assert (Qfloor q < 1); [|lia].
    rewrite Zlt_Qlt. change (inject_Z 1) with 1%Q. lra. }
  unfold py_round. rewrite Hf.
  destruct (q - inject_Z 0 ?= 1 # 2)%Q eqn:Hc; try reflexivity.
  rewrite <- Qgt_alt in Hc. unfold inject_Z in Hc. lra.
Qed.

Lemma quotient_nonneg (n b : Z) : 0 ≤ n → 0 < b → (0 <= inject_Z n / inject_Z b)%Q.
Proof.
  intros Hn Hb. apply Qle_shift_div_l.
  - change 0%Q with (inject_Z 0). rewrite <- Zlt_Qlt. exact Hb.
  - rewrite Qmult_0_l. change 0%Q with (inject_Z 0). rewrite <- Zle_Qle. exact Hn.
Qed.

Lemma quotient_nonpos (n b : Z) : 0 ≤ n → b < 0 → (inject_Z n / inject_Z b <= 0)%Q.
Proof.
  intros Hn Hb. destruct b as [|p|p]; try lia.
  unfold Qle, Qdiv, Qmult, Qinv, inject_Z. cbn [Qnum Qden]. nia.
Qed.

(** X23: a breadth of zero stops the script with a division by zero; a
    positive breadth of at least twice the number of files (any positive
    breadth when there is no file) makes the stride round to zero and the
    script stops with [ValueError] at [range]; a negative breadth either
    does the same or writes an empty list of chunks. *)
Theorem breadth_edge_cases (infiles : list string) (breadth : Z) :
  (breadth = 0 → generate_input_files infiles breadth = Raised ZeroDivisionError)
  ∧ (0 < breadth → 2 * Z.of_nat (length infiles) ≤ breadth →
     generate_input_files infiles breadth = Raised ValueError)
  ∧ (breadth < 0 →
     generate_input_files infiles breadth = Raised ValueError
     ∨ generate_input_files infiles breadth = Returned []).
Proof.
  unfold generate_input_files. rewrite (Permutation_length (merge_sort_Permutation _ _)).
  set (n := Z.of_nat (length infiles)).
  split; [|split].
  - intros ->. reflexivity.
  - intros Hb Hsmall. destruct (Z.eqb_spec breadth 0) as [|_]; [lia|].
    rewrite py_round_small; [reflexivity | apply quotient_nonneg; lia |].
    apply Qle_shift_div_r.
    + change 0%Q with (inject_Z 0). rewrite <- Zlt_Qlt. exact Hb.
    + unfold Qle, Qmult, inject_Z. cbn [Qnum Qden]. lia.
  - intros Hb. destruct (Z.eqb_spec breadth 0) as [|_]; [lia|].
    pose proof (py_round_nonpos (inject_Z n / inject_Z breadth)
                  (quotient_nonpos n breadth ltac:(lia) Hb)) as Hs.
    destruct (Z.eqb_spec (py_round (inject_Z n / inject_Z breadth)) 0) as [|Hne];
      [left; reflexivity|].
    right. unfold range_from_zero.
    destruct (Z.ltb_spec (py_round (inject_Z n / inject_Z breadth)) 0); [|lia].
    reflexivity.
Qed.

Lemma drop_drop_add {A : Type} (l : list A) (a b : nat) :
  drop a (drop b l) = drop (b + a) l.
Proof. revert l. induction b as [|b IH]; intros [|x l]; cbn; auto using drop_nil. Qed.

Lemma join_strides {A : Type} (s k : nat) (l : list A) :
  (0 < s)%nat → (length l ≤ k * s)%nat →
  mjoin ((λ i : nat, take s (drop (i * s) l)) <$> seq 0 k) = l.
Proof.
  intros Hs. revert l. induction k as [|k IH]; intros l Hl.
  - destruct l; [reflexivity | simpl in Hl; lia].
  - change (seq 0 (S k)) with (0%nat :: seq 1 k).
    rewrite fmap_cons, <- fmap_S_seq, <- list_fmap_compose.
    etransitivity; [|apply (take_drop s l)].
    change (mjoin (?x :: ?r)) with (x ++ mjoin r).
    change (drop (0 * s) l) with l. f_equal.
    etransitivity; [|apply (IH (drop s l)); rewrite length_drop; lia].
    f_equal. apply list_fmap_ext. intros _ i _. cbn [compose].
    rewrite drop_drop_add. f_equal; f_equal; lia.
Qed.

(** X24: for a positive breadth the chunks, when there are any, are the
    sorted input files cut into consecutive pieces: joined in order they
    give back the sorted list, so no file is lost, repeated or moved; each
    chunk holds between one and [stride] files, [stride] being the rounded
    quotient of the number of files by the breadth, and every chunk but
    the last holds exactly [stride]. *)
Theorem chunks_partition_the_sorted_files (infiles : list string) (breadth : Z)
    (cs : list (list string)) :
  0 < breadth →
  generate_input_files infiles breadth = Returned cs →
  let stride :=
    Z.to_nat (py_round (inject_Z (Z.of_nat (length infiles)) / inject_Z breadth)%Q) in
  mjoin cs = merge_sort str_le infiles
  ∧ mjoin cs ≡ₚ infiles
  ∧ (0 < stride)%nat
  ∧ Forall (λ c, (0 < length c ≤ stride)%nat) cs
  ∧ (∀ (i : nat) c, cs !! i = Some c → (S i < length cs)%nat → length c = stride)
  ∧ ((length cs - 1) * stride < length infiles ≤ length cs * stride)%nat.
Proof.
  intros Hb. unfold generate_input_files.
  pose proof (merge_sort_Permutation str_le infiles) as Hperm.
  rewrite (Permutation_length Hperm).
  set (sorted_files := merge_sort str_le infiles) in *.
  set (n := Z.of_nat (length infiles)).
  destruct (Z.eqb_spec breadth 0) as [|_]; [lia|].
  pose proof (py_round_nonneg _ (quotient_nonneg n breadth ltac:(lia) Hb)) as Hs0.
  set (s := py_round (inject_Z n / inject_Z breadth)) in *.
  destruct (Z.eqb_spec s 0) as [|Hs1]; [discriminate|].
  intros [= <-]. cbv zeta.
  unfold range_from_zero. destruct (Z.ltb_spec s 0) as [|_]; [lia|].
  assert (0 < n) as Hn.
  { destruct (Z.eq_dec n 0) as [Hz|]; [|lia]. exfalso. apply Hs1.
    unfold s. rewrite Hz. apply py_round_small.
    - apply quotient_nonneg; lia.
    - unfold Qle, Qdiv, Qmult, inject_Z. cbn [Qnum Qden]. lia. }
  set (k := Z.to_nat (- (- n / s))).
  set (st := Z.to_nat s).
  assert (s = Z.of_nat st) as HS by (unfold st; lia).
  assert (((k - 1) * st < length infiles ≤ k * st)%nat ∧ (0 < k)%nat ∧ (0 < st)%nat)
    as (Hkn & Hkpos & Hstpos).
  { pose proof (Z.mul_div_le (- n) s ltac:(lia)) as H1.
    pose proof (Z.mul_succ_div_gt (- n) s ltac:(lia)) as H2.
    assert (0 ≤ - (- n / s)) as H3 by nia.
    assert (Z.of_nat k = - (- n / s)) as Hk by (unfold k; lia).
    assert (0 < Z.of_nat k) as Hk1 by nia.
    assert ((Z.of_nat k - 1) * Z.of_nat st < n ≤ Z.of_nat k * Z.of_nat st) as Hcov
      by (rewrite Hk, <- HS; nia).
    unfold n in Hcov. split; [|lia].
    replace (Z.of_nat k - 1) with (Z.of_nat (k - 1)) in Hcov by lia.
    rewrite <- !Nat2Z.inj_mul in Hcov. lia. }
  rewrite <- list_fmap_compose.
  assert ((λ ii, slice sorted_files ii s) ∘ (λ k0 : nat, Z.of_nat k0 * s) <$> seq 0 k
          = (λ i : nat, take st (drop (i * st) sorted_files)) <$> seq 0 k) as ->.
  { apply list_fmap_ext. intros _ i _. cbn [compose]. unfold slice. fold st.
    f_equal. f_equal. rewrite HS. lia. }
  assert (Hjoin : mjoin ((λ i : nat, take st (drop (i * st) sorted_files)) <$> seq 0 k)
                  = sorted_files).
  { apply join_strides; [lia|]. rewrite (Permutation_length Hperm). lia. }
  assert (Hlen : ∀ (i : nat) c,
            ((λ i : nat, take st (drop (i * st) sorted_files)) <$> seq 0 k) !! i
              = Some c →
            length c = Nat.min st (length infiles - i * st) ∧ (i < k)%nat).
  { intros i c Hc. rewrite list_lookup_fmap in Hc.
    destruct (seq 0 k !! i) as [j|] eqn:Hj; [|discriminate].
    apply lookup_seq in Hj as [-> Hj]. injection Hc as <-.
    rewrite length_take, length_drop, (Permutation_length Hperm).
    split; [reflexivity | exact Hj]. }
  rewrite length_fmap, length_seq.
  split; [exact Hjoin|]. split; [rewrite Hjoin; exact Hperm|].
  split; [lia|]. split; [|split].
  - apply Forall_lookup. intros i c Hc. apply Hlen in Hc as [-> Hi].
    assert (i * st ≤ (k - 1) * st)%nat by (apply Nat.mul_le_mono_r; lia). lia.
  - intros i c Hc Hi. apply Hlen in Hc as [-> _].
    assert (S i * st ≤ (k - 1) * st)%nat by (apply Nat.mul_le_mono_r; lia).
    cbn [Nat.mul] in *. lia.
  - exact Hkn.
Qed.

Lemma chunks_partition_the_sorted_files_witness :
  let stride := Z.to_nat (py_round (inject_Z (Z.of_nat 5) / inject_Z 2)%Q) in
  let cs := [["a"; "b"]; ["c"; "d"]; ["e"]] in
  mjoin cs = merge_sort str_le ["b"; "a"; "d"; "c"; "e"]
  ∧ mjoin cs ≡ₚ ["b"; "a"; "d"; "c"; "e"]
  ∧ (0 < stride)%nat
  ∧ Forall (λ c, (0 < length c ≤ stride)%nat) cs
  ∧ (∀ (i : nat) c, cs !! i = Some c → (S i < length cs)%nat → length c = stride)
  ∧ ((length cs - 1) * stride < 5 ≤ length cs * stride)%nat.
Proof.
  apply (chunks_partition_the_sorted_files ["b"; "a"; "d"; "c"; "e"] 2);
    [lia | vm_compute; reflexivity].
Defined.

End InputChunks.
